(** * RabbitStressTest: a shallow embedding of the test orchestration engine

    The development follows the class [RabbitStressTest] of
    [Topic_Type_Exchanges/stress-test.js]: the session object ([this]) is a
    record, every method is a function on that record, and what the class
    cannot decide by itself (the broker, the wall clock, [Math.random]) is an
    environment of oracles.

    Conventions.
    - Counters and targets are JavaScript numbers that hold integers; they
      are integers of [Z] here (exact below 2^53).  Where the source divides
      ([takeSnapShot]) the binary64 operations of the kernel are used.
    - A method that can throw returns a [Completion] next to the session it
      leaves behind: the mutations made before a [throw] stay.
    - A [while] loop takes fuel.  Its outcome is [None] when the fuel ran out
      with the loop still running, and the session returned is then the one
      reached so far; a loop terminates when some fuel gives an outcome.
    - The exchanges object is a finite map from own property names to
      exchanges; a read also sees the names every object inherits from
      [Object.prototype].  (The [__proto__] setter is not modelled: an
      exchange of that name is outside the model.)
    - A snapshot stores the values its fields had when it was taken.  (The
      source stores references, so a later [prepTests] also grows the
      [testMessages] of an earlier snapshot; no property below speaks of
      the plan of a snapshot after a later [prepTests].)
    - [console.error] is not modelled. *)

From Stdlib Require Import ZArith List Bool Lia.
From Stdlib Require Import Floats.PrimFloat Floats.FloatOps Floats.SpecFloat Uint63.
From stdpp Require Import base strings gmap list.

Local Open Scope Z_scope.

(** ** Numbers *)

(** The integer [z] as a binary64 number (exact for [|z| < 2^53]). *)
Definition Z2float (z : Z) : float :=
  if z <? 0 then PrimFloat.opp (PrimFloat.of_uint63 (Uint63.of_Z (- z)))
  else PrimFloat.of_uint63 (Uint63.of_Z z).

(** [Math.floor]: a finite number with a negative exponent is cut at the
    binary point (towards minus infinity); integers, zeros, infinities and
    NaN are returned as they are. *)
Definition Math_floor (x : float) : float :=
  match Prim2SF x with
  | S754_finite s m e =>
      if e <? 0
      then Z2float (Z.shiftr (if s then Z.neg m else Z.pos m) (- e))
      else x
  | _ => x
  end.

(** [Math.floor((totalMessagesSent / target) * 100)], in binary64 as in the
    source: the quotient is rounded before it is multiplied. *)
Definition messageSuccessRate (totalMessagesSent target : Z) : float :=
  Math_floor
    (PrimFloat.mul (PrimFloat.div (Z2float totalMessagesSent) (Z2float target))
       (Z2float 100)).

(** A value of [Math.random()]: the fraction [numer / (numer + slack + 1)],
    which lies in the interval from 0 (included) to 1 (excluded). *)
Record Random01 := { numer : nat; slack : nat }.

(** [Math.floor(Math.random() * length)]. *)
Definition randomIndex (r : Random01) (len : nat) : nat :=
  (numer r * len / (numer r + slack r + 1))%nat.

(** ** JavaScript values, as far as [updateTarget] inspects its argument *)

Inductive JsNumber :=
| NaN
| Int (z : Z).

Inductive JsValue :=
| JsUndefined
| JsNull
| JsBoolean (b : bool)
| JsNum (n : JsNumber)
| JsString (s : string)
| JsObject (fields : list (string * string)).

(** ToBoolean. *)
Definition truthy (v : JsValue) : bool :=
  match v with
  | JsUndefined | JsNull => false
  | JsBoolean b => b
  | JsNum NaN => false
  | JsNum (Int z) => negb (z =? 0)
  | JsString s => negb (String.eqb s "")
  | JsObject _ => true
  end.

Definition typeof (v : JsValue) : string :=
  match v with
  | JsUndefined => "undefined"
  | JsNull => "object"
  | JsBoolean _ => "boolean"
  | JsNum _ => "number"
  | JsString _ => "string"
  | JsObject _ => "object"
  end.

(** ** Data model *)

(** The message template: an object of string fields. *)
Definition Message := list (string * string).

Module Exchange.
Record t := {
  name : string;
  vhost : string;
  type : string;
  durable : bool;
  auto_delete : bool;
  internal : bool;
  arguments : list (string * string)
}.
End Exchange.

Module Binding.
Record t := {
  source : string;
  vhost : string;
  destination : string;
  destination_type : string;
  routing_key : string;
  arguments : list (string * string)
}.
End Binding.

(** One entry of the dispatch plan.  [exchangeType] is [None] when the
    source pushed [undefined]. *)
Module TestMessage.
Record t := {
  exchangeName : string;
  exchangeType : option string;
  rabbitAddress : string;
  key : string;
  message : Message
}.
End TestMessage.

Module SnapShot.
Record t := {
  rabbitAddress : string;
  exchanges : gmap string Exchange.t;
  bindings : list Binding.t;
  testMessages : list TestMessage.t;
  testType : string;
  totalMessagesSent : Z;
  target : Z;
  start : option Z;
  end_ : Z;
  testDuration : float;
  messageSuccessRate : float
}.
End SnapShot.

(** ** The world outside the class *)

(** What [channel.publish] is called with. *)
Record Publication := {
  pub_exchange : string;
  pub_key : string;
  pub_content : Message
}.

(** The calls made to the broker, in the order they were made. *)
Inductive Event :=
| EvConnect (address : string) (ok : bool)
| EvCreateChannel (ok : bool)
| EvPublish (p : Publication)
| EvPublishFailed (p : Publication)
| EvChannelClose (ok : bool)
| EvConnectionClose (ok : bool).

Inductive Error :=
| ConnectionError
| ChannelError
| PublishError
| CloseError
| TypeError.

Inductive Completion :=
| Normal
| Throw (e : Error).

(** The oracles: whether a call to the broker returns or throws, given the
    calls made so far; the clock and the random source, by the number of
    earlier reads. *)
Record Env := {
  amqp_connect : list Event -> string -> bool;
  createChannel : list Event -> bool;
  channel_publish : list Event -> Publication -> bool;
  channel_close : list Event -> bool;
  connection_close : list Event -> bool;
  Date_now : nat -> Z;
  Math_random : nat -> Random01
}.

(** ** The session: the fields of [this], then the state of the world *)

Record Session := {
  rabbitAddress : string;
  exchanges : gmap string Exchange.t;
  bindings : list Binding.t;
  readyToTest : bool;
  testMessages : list TestMessage.t;
  totalMessagesSent : Z;
  snapShots : list SnapShot.t;
  message : Message;
  target : Z;
  connection : bool;
  channel : bool;
  start : option Z;
  randomNumber : option nat;
  testDuration : option Z;
  events : list Event;
  clockReads : nat;
  randomDraws : nat
}.

(** Assignment to one field. *)

Definition set_rabbitAddress (v : string) (s : Session) : Session :=
  {| rabbitAddress := v; exchanges := exchanges s; bindings := bindings s;
     readyToTest := readyToTest s; testMessages := testMessages s;
     totalMessagesSent := totalMessagesSent s; snapShots := snapShots s;
     message := message s; target := target s; connection := connection s;
     channel := channel s; start := start s; randomNumber := randomNumber s;
     testDuration := testDuration s; events := events s;
     clockReads := clockReads s; randomDraws := randomDraws s |}.

Definition set_exchanges (v : gmap string Exchange.t) (s : Session) : Session :=
  {| rabbitAddress := rabbitAddress s; exchanges := v;
     bindings := bindings s; readyToTest := readyToTest s;
     testMessages := testMessages s;
     totalMessagesSent := totalMessagesSent s; snapShots := snapShots s;
     message := message s; target := target s; connection := connection s;
     channel := channel s; start := start s; randomNumber := randomNumber s;
     testDuration := testDuration s; events := events s;
     clockReads := clockReads s; randomDraws := randomDraws s |}.

Definition set_bindings (v : list Binding.t) (s : Session) : Session :=
  {| rabbitAddress := rabbitAddress s; exchanges := exchanges s;
     bindings := v; readyToTest := readyToTest s;
     testMessages := testMessages s;
     totalMessagesSent := totalMessagesSent s; snapShots := snapShots s;
     message := message s; target := target s; connection := connection s;
     channel := channel s; start := start s; randomNumber := randomNumber s;
     testDuration := testDuration s; events := events s;
     clockReads := clockReads s; randomDraws := randomDraws s |}.

Definition set_readyToTest (v : bool) (s : Session) : Session :=
  {| rabbitAddress := rabbitAddress s; exchanges := exchanges s;
     bindings := bindings s; readyToTest := v;
     testMessages := testMessages s;
     totalMessagesSent := totalMessagesSent s; snapShots := snapShots s;
     message := message s; target := target s; connection := connection s;
     channel := channel s; start := start s; randomNumber := randomNumber s;
     testDuration := testDuration s; events := events s;
     clockReads := clockReads s; randomDraws := randomDraws s |}.

Definition set_testMessages (v : list TestMessage.t) (s : Session) : Session :=
  {| rabbitAddress := rabbitAddress s; exchanges := exchanges s;
     bindings := bindings s; readyToTest := readyToTest s; testMessages := v;
     totalMessagesSent := totalMessagesSent s; snapShots := snapShots s;
     message := message s; target := target s; connection := connection s;
     channel := channel s; start := start s; randomNumber := randomNumber s;
     testDuration := testDuration s; events := events s;
     clockReads := clockReads s; randomDraws := randomDraws s |}.

Definition set_totalMessagesSent (v : Z) (s : Session) : Session :=
  {| rabbitAddress := rabbitAddress s; exchanges := exchanges s;
     bindings := bindings s; readyToTest := readyToTest s;
     testMessages := testMessages s; totalMessagesSent := v;
     snapShots := snapShots s; message := message s; target := target s;
     connection := connection s; channel := channel s; start := start s;
     randomNumber := randomNumber s; testDuration := testDuration s;
     events := events s; clockReads := clockReads s;
     randomDraws := randomDraws s |}.

Definition set_snapShots (v : list SnapShot.t) (s : Session) : Session :=
  {| rabbitAddress := rabbitAddress s; exchanges := exchanges s;
     bindings := bindings s; readyToTest := readyToTest s;
     testMessages := testMessages s;
     totalMessagesSent := totalMessagesSent s; snapShots := v;
     message := message s; target := target s; connection := connection s;
     channel := channel s; start := start s; randomNumber := randomNumber s;
     testDuration := testDuration s; events := events s;
     clockReads := clockReads s; randomDraws := randomDraws s |}.

Definition set_message (v : Message) (s : Session) : Session :=
  {| rabbitAddress := rabbitAddress s; exchanges := exchanges s;
     bindings := bindings s; readyToTest := readyToTest s;
     testMessages := testMessages s;
     totalMessagesSent := totalMessagesSent s; snapShots := snapShots s;
     message := v; target := target s; connection := connection s;
     channel := channel s; start := start s; randomNumber := randomNumber s;
     testDuration := testDuration s; events := events s;
     clockReads := clockReads s; randomDraws := randomDraws s |}.

Definition set_target (v : Z) (s : Session) : Session :=
  {| rabbitAddress := rabbitAddress s; exchanges := exchanges s;
     bindings := bindings s; readyToTest := readyToTest s;
     testMessages := testMessages s;
     totalMessagesSent := totalMessagesSent s; snapShots := snapShots s;
     message := message s; target := v; connection := connection s;
     channel := channel s; start := start s; randomNumber := randomNumber s;
     testDuration := testDuration s; events := events s;
     clockReads := clockReads s; randomDraws := randomDraws s |}.

Definition set_connection (v : bool) (s : Session) : Session :=
  {| rabbitAddress := rabbitAddress s; exchanges := exchanges s;
     bindings := bindings s; readyToTest := readyToTest s;
     testMessages := testMessages s;
     totalMessagesSent := totalMessagesSent s; snapShots := snapShots s;
     message := message s; target := target s; connection := v;
     channel := channel s; start := start s; randomNumber := randomNumber s;
     testDuration := testDuration s; events := events s;
     clockReads := clockReads s; randomDraws := randomDraws s |}.

Definition set_channel (v : bool) (s : Session) : Session :=
  {| rabbitAddress := rabbitAddress s; exchanges := exchanges s;
     bindings := bindings s; readyToTest := readyToTest s;
     testMessages := testMessages s;
     totalMessagesSent := totalMessagesSent s; snapShots := snapShots s;
     message := message s; target := target s; connection := connection s;
     channel := v; start := start s; randomNumber := randomNumber s;
     testDuration := testDuration s; events := events s;
     clockReads := clockReads s; randomDraws := randomDraws s |}.

Definition set_start (v : option Z) (s : Session) : Session :=
  {| rabbitAddress := rabbitAddress s; exchanges := exchanges s;
     bindings := bindings s; readyToTest := readyToTest s;
     testMessages := testMessages s;
     totalMessagesSent := totalMessagesSent s; snapShots := snapShots s;
     message := message s; target := target s; connection := connection s;
     channel := channel s; start := v; randomNumber := randomNumber s;
     testDuration := testDuration s; events := events s;
     clockReads := clockReads s; randomDraws := randomDraws s |}.

Definition set_randomNumber (v : option nat) (s : Session) : Session :=
  {| rabbitAddress := rabbitAddress s; exchanges := exchanges s;
     bindings := bindings s; readyToTest := readyToTest s;
     testMessages := testMessages s;
     totalMessagesSent := totalMessagesSent s; snapShots := snapShots s;
     message := message s; target := target s; connection := connection s;
     channel := channel s; start := start s; randomNumber := v;
     testDuration := testDuration s; events := events s;
     clockReads := clockReads s; randomDraws := randomDraws s |}.

Definition set_testDuration (v : option Z) (s : Session) : Session :=
  {| rabbitAddress := rabbitAddress s; exchanges := exchanges s;
     bindings := bindings s; readyToTest := readyToTest s;
     testMessages := testMessages s;
     totalMessagesSent := totalMessagesSent s; snapShots := snapShots s;
     message := message s; target := target s; connection := connection s;
     channel := channel s; start := start s; randomNumber := randomNumber s;
     testDuration := v; events := events s; clockReads := clockReads s;
     randomDraws := randomDraws s |}.

Definition set_events (v : list Event) (s : Session) : Session :=
  {| rabbitAddress := rabbitAddress s; exchanges := exchanges s;
     bindings := bindings s; readyToTest := readyToTest s;
     testMessages := testMessages s;
     totalMessagesSent := totalMessagesSent s; snapShots := snapShots s;
     message := message s; target := target s; connection := connection s;
     channel := channel s; start := start s; randomNumber := randomNumber s;
     testDuration := testDuration s; events := v; clockReads := clockReads s;
     randomDraws := randomDraws s |}.

Definition set_clockReads (v : nat) (s : Session) : Session :=
  {| rabbitAddress := rabbitAddress s; exchanges := exchanges s;
     bindings := bindings s; readyToTest := readyToTest s;
     testMessages := testMessages s;
     totalMessagesSent := totalMessagesSent s; snapShots := snapShots s;
     message := message s; target := target s; connection := connection s;
     channel := channel s; start := start s; randomNumber := randomNumber s;
     testDuration := testDuration s; events := events s; clockReads := v;
     randomDraws := randomDraws s |}.

Definition set_randomDraws (v : nat) (s : Session) : Session :=
  {| rabbitAddress := rabbitAddress s; exchanges := exchanges s;
     bindings := bindings s; readyToTest := readyToTest s;
     testMessages := testMessages s;
     totalMessagesSent := totalMessagesSent s; snapShots := snapShots s;
     message := message s; target := target s; connection := connection s;
     channel := channel s; start := start s; randomNumber := randomNumber s;
     testDuration := testDuration s; events := events s;
     clockReads := clockReads s; randomDraws := v |}.

(** ** Property reads on the exchanges object *)

(** The property names an object literal inherits from [Object.prototype]. *)
Definition objectPrototypeNames : list string :=
  ["constructor"; "__proto__"; "hasOwnProperty"; "isPrototypeOf";
   "propertyIsEnumerable"; "toLocaleString"; "toString"; "valueOf";
   "__defineGetter__"; "__defineSetter__"; "__lookupGetter__";
   "__lookupSetter__"].

(** The outcome of [this.exchanges[k]]: an exchange stored under [k], a
    value inherited from the prototype, or [undefined]. *)
Inductive Property :=
| Own (exc : Exchange.t)
| Inherited
| Undefined.

Definition getProperty (obj : gmap string Exchange.t) (k : string) : Property :=
  match obj !! k with
  | Some exc => Own exc
  | None => if bool_decide (k ∈ objectPrototypeNames) then Inherited else Undefined
  end.

(** [this.exchanges = {}; exchanges.forEach((exc) => this.exchanges[exc.name] = exc)] *)
Definition indexExchanges (excs : list Exchange.t) : gmap string Exchange.t :=
  fold_left (fun obj exc => <[Exchange.name exc := exc]> obj) excs ∅.

(** ** Control *)

(** Sequencing: a [throw] skips what follows and keeps the session. *)
Definition andThen (r : Completion * Session)
    (k : Session -> Completion * Session) : Completion * Session :=
  match r with
  | (Normal, s) => k s
  | (Throw e, s) => (Throw e, s)
  end.

(** [l.forEach(f)] and [for (const x of l) f(x)] over an array that the body
    does not modify. *)
Fixpoint forEach {A : Type} (f : A -> Session -> Completion * Session)
    (l : list A) (s : Session) : Completion * Session :=
  match l with
  | [] => (Normal, s)
  | x :: l' => andThen (f x s) (forEach f l')
  end.

(** [while (cond) body]: the condition may read the clock, so it returns the
    session too.  The outcome is [None] when the fuel ran out with the loop
    still running; the session is then the one reached so far. *)
Fixpoint while (fuel : nat) (cond : Session -> bool * Session)
    (body : Session -> Completion * Session) (s : Session)
    : option Completion * Session :=
  let (c, s1) := cond s in
  if c then
    match fuel with
    | O => (None, s1)
    | S fuel' =>
        match body s1 with
        | (Normal, s2) => while fuel' cond body s2
        | (Throw e, s2) => (Some (Throw e), s2)
        end
    end
  else (Some Normal, s1).

(** ** The methods of [RabbitStressTest] *)

Definition constructor (rabbitAddress : string) (exchanges : list Exchange.t)
    (bindings : list Binding.t) (message : option Message) (target : option Z)
    : Session :=
  {| rabbitAddress := rabbitAddress;
     exchanges := indexExchanges exchanges;
     bindings := bindings;
     readyToTest := false;
     testMessages := [];
     totalMessagesSent := 0;
     snapShots := [];
     message := match message with
                | Some m => m
                | None => [("type", "Stress Test")]
                end;
     target := match target with
               | Some t => if truthy (JsNum (Int t)) then t else 1000
               | None => 1000
               end;
     connection := false;
     channel := false;
     start := None;
     randomNumber := None;
     testDuration := None;
     events := [];
     clockReads := 0;
     randomDraws := 0 |}.

Definition log (e : Event) (s : Session) : Session :=
  set_events (events s ++ [e]) s.

Section Methods.

Variable env : Env.

Definition connectToRabbitMQ (s : Session) : Completion * Session :=
  if amqp_connect env (events s) (rabbitAddress s) then
    let s1 := set_connection true (log (EvConnect (rabbitAddress s) true) s) in
    if createChannel env (events s1) then
      (Normal, set_channel true (log (EvCreateChannel true) s1))
    else (Throw ChannelError, log (EvCreateChannel false) s1)
  else (Throw ConnectionError, log (EvConnect (rabbitAddress s) false) s).

Definition publishMessage (exchangeName key : string) (msgObj : Message)
    (s : Session) : Completion * Session :=
  if channel s then
    let p := {| pub_exchange := exchangeName; pub_key := key;
                pub_content := msgObj |} in
    if channel_publish env (events s) p then
      (Normal,
       set_totalMessagesSent (totalMessagesSent s + 1) (log (EvPublish p) s))
    else (Throw PublishError, log (EvPublishFailed p) s)
  else (Throw TypeError, s).

Definition closeConnection (s : Session) : Completion * Session :=
  andThen
    (if channel s then
       if channel_close env (events s)
       then (Normal, log (EvChannelClose true) s)
       else (Throw CloseError, log (EvChannelClose false) s)
     else (Normal, s))
    (fun s1 =>
       if connection s1 then
         if connection_close env (events s1)
         then (Normal, log (EvConnectionClose true) s1)
         else (Throw CloseError, log (EvConnectionClose false) s1)
       else (Normal, s1)).

(** The body of the [forEach] of [prepTests]; reading [.type] of
    [undefined] throws. *)
Definition pushTestMessage (binding : Binding.t) (s : Session)
    : Completion * Session :=
  let entry (ty : option string) :=
    {| TestMessage.exchangeName := Binding.source binding;
       TestMessage.exchangeType := ty;
       TestMessage.rabbitAddress := rabbitAddress s;
       TestMessage.key := Binding.routing_key binding;
       TestMessage.message := message s |} in
  match getProperty (exchanges s) (Binding.source binding) with
  | Own exc =>
      (Normal,
       set_testMessages (testMessages s ++ [entry (Some (Exchange.type exc))]) s)
  | Inherited => (Normal, set_testMessages (testMessages s ++ [entry None]) s)
  | Undefined => (Throw TypeError, s)
  end.

Definition prepTests (s : Session) : Completion * Session :=
  andThen (connectToRabbitMQ s) (fun s1 =>
  andThen (forEach pushTestMessage (bindings s1) s1) (fun s2 =>
  (Normal, set_readyToTest true s2))).

Definition takeSnapShot (startDate : option Z) (type : string) (s : Session)
    : Session :=
  let end_ := Date_now env (clockReads s) in
  let now := Date_now env (S (clockReads s)) in
  let snap :=
    {| SnapShot.rabbitAddress := rabbitAddress s;
       SnapShot.exchanges := exchanges s;
       SnapShot.bindings := bindings s;
       SnapShot.testMessages := testMessages s;
       SnapShot.testType := type;
       SnapShot.totalMessagesSent := totalMessagesSent s;
       SnapShot.target := target s;
       SnapShot.start := startDate;
       SnapShot.end_ := end_;
       SnapShot.testDuration :=
         PrimFloat.div
           (match startDate with
            | Some st => Z2float (now - st)
            | None => PrimFloat.nan
            end)
           (Z2float 1000);
       SnapShot.messageSuccessRate :=
         messageSuccessRate (totalMessagesSent s) (target s) |} in
  set_snapShots (snapShots s ++ [snap])
    (set_clockReads (S (S (clockReads s))) s).

(** [this.publishMessage(msg.exchangeName, msg.key, msg.message)] *)
Definition publishEntry (msg : TestMessage.t) (s : Session)
    : Completion * Session :=
  publishMessage (TestMessage.exchangeName msg) (TestMessage.key msg)
    (TestMessage.message msg) s.

(** [this.testMessages[this.randomNumber]] is read; [undefined] has no
    [exchangeName]. *)
Definition publishRandomNumber (s : Session) : Completion * Session :=
  match randomNumber s with
  | Some i =>
      match testMessages s !! i with
      | Some msg => publishEntry msg s
      | None => (Throw TypeError, s)
      end
  | None => (Throw TypeError, s)
  end.

(** [this.randomNumber = Math.floor(Math.random() * this.testMessages.length)] *)
Definition drawRandomNumber (s : Session) : Session :=
  set_randomNumber
    (Some (randomIndex (Math_random env (randomDraws s))
             (length (testMessages s))))
    (set_randomDraws (S (randomDraws s)) s).

(** [this.totalMessagesSent <= this.target] *)
Definition belowTarget (s : Session) : bool * Session :=
  (totalMessagesSent s <=? target s, s).

(** [Date.now() - this.start < this.testDuration]; with a field missing
    the comparison is false. *)
Definition withinDuration (s : Session) : bool * Session :=
  let now := Date_now env (clockReads s) in
  (match start s, testDuration s with
   | Some st, Some d => now - st <? d
   | _, _ => false
   end,
   set_clockReads (S (clockReads s)) s).

(** The [switch] of [runTest]. *)
Definition runCase (fuel : nat) (type : string) (s : Session)
    : option Completion * Session :=
  if String.eqb type "round-robin" then
    while fuel belowTarget (fun s => forEach publishEntry (testMessages s) s) s
  else if String.eqb type "random" then
    match
      while fuel belowTarget (fun s => publishRandomNumber (drawRandomNumber s)) s
    with
    | (Some Normal, s1) => (Some Normal, set_randomNumber None s1)
    | r => r
    end
  else if String.eqb type "extended-duration" then
    match
      while fuel withinDuration
        (fun s => forEach publishEntry (testMessages s) s)
        (set_testDuration (Some 3600000) s)
    with
    | (Some Normal, s1) => (Some Normal, set_testDuration None s1)
    | r => r
    end
  else if String.eqb type "single-binding" then
    match while fuel belowTarget publishRandomNumber (drawRandomNumber s) with
    | (Some Normal, s1) => (Some Normal, set_randomNumber None s1)
    | r => r
    end
  else (Some Normal, s).

(** [if (!this.connection || !this.channel) await this.connectToRabbitMQ()] *)
Definition ensureConnected (s : Session) : Completion * Session :=
  if negb (connection s) || negb (channel s)
  then connectToRabbitMQ s else (Normal, s).

(** [this.start = new Date(Date.now())] *)
Definition markStart (s : Session) : Session :=
  set_start (Some (Date_now env (clockReads s)))
    (set_clockReads (S (clockReads s)) s).

(** What follows the [switch]: the snapshot, the close that is not
    awaited (its outcome reaches nobody), the reset of the counter. *)
Definition finish (type : string) (s : Session) : Session :=
  set_totalMessagesSent 0
    (snd (closeConnection (takeSnapShot (start s) type s))).

Definition runTest (fuel : nat) (type : string) (s : Session)
    : option Completion * Session :=
  if negb (readyToTest s) then (Some Normal, s)
  else
    match ensureConnected s with
    | (Throw e, s1) => (Some (Throw e), s1)
    | (Normal, s1) =>
        match runCase fuel type (markStart s1) with
        | (Some Normal, s2) => (Some Normal, finish type s2)
        | r => r
        end
    end.

Definition updateRabbitStressTest (rabbitAddress : option string)
    (exchanges : option (list Exchange.t)) (bindings : option (list Binding.t))
    (message : option Message) (s : Session) : Session :=
  let s1 := match rabbitAddress with
            | Some a => if truthy (JsString a) then set_rabbitAddress a s else s
            | None => s
            end in
  let s2 := match exchanges with
            | Some excs => set_exchanges (indexExchanges excs) s1
            | None => s1
            end in
  let s3 := match bindings with
            | Some bs => set_bindings bs s2
            | None => s2
            end in
  let s4 := set_totalMessagesSent 0 (set_testMessages [] (set_readyToTest false s3)) in
  match message with
  | Some m => set_message m s4
  | None => s4
  end.

Definition updateTarget (target : JsValue) (s : Session) : Session :=
  if truthy target && String.eqb (typeof target) "number" then
    match target with
    | JsNum (Int z) => set_target z s
    | _ => s
    end
  else s.

End Methods.

(** ** The event log and the predicates of the properties *)

(** The publications the broker accepted, oldest first. *)
Fixpoint publications (evs : list Event) : list Publication :=
  match evs with
  | [] => []
  | EvPublish p :: evs' => p :: publications evs'
  | _ :: evs' => publications evs'
  end.

Definition isFailedPublish (e : Event) : bool :=
  match e with
  | EvPublishFailed _ => true
  | _ => false
  end.

(** A stretch of the log in which no publish was refused. *)
Definition clean (evs : list Event) : Prop :=
  Forall (fun e => isFailedPublish e = false) evs.

(** The environment in which the broker accepts every connection, channel
    and publish. *)
Definition reliable (env : Env) : Prop :=
  (forall evs a, amqp_connect env evs a = true) /\
  (forall evs, createChannel env evs = true) /\
  (forall evs p, channel_publish env evs p = true).

(** What [publishEntry] hands to the broker. *)
Definition publicationOf (msg : TestMessage.t) : Publication :=
  {| pub_exchange := TestMessage.exchangeName msg;
     pub_key := TestMessage.key msg;
     pub_content := TestMessage.message msg |}.

(** The fields that publishing, drawing and reading the clock leave alone. *)
Record sameSetup (s s' : Session) : Prop := {
  same_rabbitAddress : rabbitAddress s' = rabbitAddress s;
  same_exchanges : exchanges s' = exchanges s;
  same_bindings : bindings s' = bindings s;
  same_readyToTest : readyToTest s' = readyToTest s;
  same_testMessages : testMessages s' = testMessages s;
  same_snapShots : snapShots s' = snapShots s;
  same_message : message s' = message s;
  same_target : target s' = target s;
  same_connection : connection s' = connection s;
  same_channel : channel s' = channel s;
  same_start : start s' = start s
}.

(** A stretch of a run seen from outside: the setup is kept, the log grows,
    the counter grows by the number of accepted publications, and a refused
    publish is the last thing that happened, exactly when the outcome is
    that error. *)
Definition stretch (s : Session) (o : option Completion) (s' : Session) : Prop :=
  sameSetup s s' /\
  exists new,
    events s' = events s ++ new /\
    totalMessagesSent s' =
      totalMessagesSent s + Z.of_nat (length (publications new)) /\
    match o with
    | Some (Throw PublishError) =>
        exists pre p, new = pre ++ [EvPublishFailed p] /\ clean pre
    | _ => clean new
    end.

(** Connecting and closing talk to the broker but publish nothing and keep
    the counter and the history. *)
Record quietly (s s' : Session) : Prop := {
  quiet_snapShots : snapShots s' = snapShots s;
  quiet_totalMessagesSent : totalMessagesSent s' = totalMessagesSent s;
  quiet_target : target s' = target s;
  quiet_testMessages : testMessages s' = testMessages s;
  quiet_start : start s' = start s;
  quiet_clockReads : clockReads s' = clockReads s;
  quiet_randomDraws : randomDraws s' = randomDraws s;
  quiet_events :
    exists new, events s' = events s ++ new /\ clean new /\ publications new = []
}.


(** ** The plan a compile is meant to produce *)

(** The entry [prepTests] pushes for a binding whose source resolves. *)
Definition entryOf (s : Session) (binding : Binding.t) : TestMessage.t :=
  {| TestMessage.exchangeName := Binding.source binding;
     TestMessage.exchangeType :=
       match getProperty (exchanges s) (Binding.source binding) with
       | Own exc => Some (Exchange.type exc)
       | _ => None
       end;
     TestMessage.rabbitAddress := rabbitAddress s;
     TestMessage.key := Binding.routing_key binding;
     TestMessage.message := message s |}.

(** One entry per binding, in the order of the bindings. *)
Definition compiledPlan (s : Session) : list TestMessage.t :=
  map (entryOf s) (bindings s).

(** [this.exchanges[binding.source]] is not [undefined]. *)
Definition resolves (s : Session) (binding : Binding.t) : Prop :=
  getProperty (exchanges s) (Binding.source binding) <> Undefined.

(** The session a successful [connectToRabbitMQ] leaves. *)
Definition connected (s : Session) : Session :=
  set_channel true
    (log (EvCreateChannel true)
       (set_connection true (log (EvConnect (rabbitAddress s) true) s))).

(** Two sessions that differ at most in [target]. *)
Record sameButTarget (s s' : Session) : Prop := {
  sbt_rabbitAddress : rabbitAddress s' = rabbitAddress s;
  sbt_exchanges : exchanges s' = exchanges s;
  sbt_bindings : bindings s' = bindings s;
  sbt_readyToTest : readyToTest s' = readyToTest s;
  sbt_testMessages : testMessages s' = testMessages s;
  sbt_totalMessagesSent : totalMessagesSent s' = totalMessagesSent s;
  sbt_snapShots : snapShots s' = snapShots s;
  sbt_message : message s' = message s;
  sbt_connection : connection s' = connection s;
  sbt_channel : channel s' = channel s;
  sbt_start : start s' = start s;
  sbt_randomNumber : randomNumber s' = randomNumber s;
  sbt_testDuration : testDuration s' = testDuration s;
  sbt_events : events s' = events s;
  sbt_clockReads : clockReads s' = clockReads s;
  sbt_randomDraws : randomDraws s' = randomDraws s
}.

(** ** Scenarios *)

(** A broker that accepts everything, a clock that advances one second per
    read, and a random source. *)
Definition calm : Env :=
  {| amqp_connect := fun _ _ => true;
     createChannel := fun _ => true;
     channel_publish := fun _ _ => true;
     channel_close := fun _ => true;
     connection_close := fun _ => true;
     Date_now := fun n => 1000 * Z.of_nat n;
     Math_random := fun n => {| numer := n; slack := 2 |} |}.

(** As [calm], but the broker refuses the publish that comes after two
    accepted ones (and only that one). *)
Definition flaky : Env :=
  {| amqp_connect := fun _ _ => true;
     createChannel := fun _ => true;
     channel_publish := fun evs _ =>
       negb ((length (publications evs) =? 2)%nat
             && (length (filter (fun e => isFailedPublish e = true) evs) =? 0)%nat);
     channel_close := fun _ => true;
     connection_close := fun _ => true;
     Date_now := fun n => 1000 * Z.of_nat n;
     Math_random := fun n => {| numer := n; slack := 2 |} |}.

Definition exchangeX : Exchange.t :=
  {| Exchange.name := "X"; Exchange.vhost := "/"; Exchange.type := "topic";
     Exchange.durable := true; Exchange.auto_delete := false;
     Exchange.internal := false; Exchange.arguments := [] |}.

Definition bindingK : Binding.t :=
  {| Binding.source := "X"; Binding.vhost := "/"; Binding.destination := "q";
     Binding.destination_type := "queue"; Binding.routing_key := "k";
     Binding.arguments := [] |}.

(** A binding whose source is no exchange. *)
Definition bindingY : Binding.t :=
  {| Binding.source := "Y"; Binding.vhost := "/"; Binding.destination := "q";
     Binding.destination_type := "queue"; Binding.routing_key := "j";
     Binding.arguments := [] |}.

(** What a publish of [bindingK] hands to the broker. *)
Definition publicationK : Publication :=
  {| pub_exchange := "X"; pub_key := "k";
     pub_content := [("type", "Stress Test")] |}.

(** [new RabbitStressTest('amqp://localhost', [X], [k], undefined, 5)] *)
Definition scenario : Session :=
  constructor "amqp://localhost" [exchangeX] [bindingK] None (Some 5).

(** The scenario after [prepTests()]. *)
Definition prepared : Session := snd (prepTests calm scenario).

(** The same topology with a second binding that names no exchange. *)
Definition dangling : Session :=
  constructor "amqp://localhost" [exchangeX] [bindingK; bindingY] None (Some 5).

(** ** Kinds of events *)

(** A publish, accepted or refused, of an entry of the plan. *)
Definition planEvent (plan : list TestMessage.t) (e : Event) : Prop :=
  match e with
  | EvPublish p | EvPublishFailed p =>
      exists msg, msg ∈ plan /\ p = publicationOf msg
  | _ => False
  end.

Definition isConnectEvent (e : Event) : bool :=
  match e with
  | EvConnect _ _ | EvCreateChannel _ => true
  | _ => false
  end.

Definition isCloseEvent (e : Event) : bool :=
  match e with
  | EvChannelClose _ | EvConnectionClose _ => true
  | _ => false
  end.

(** A stretch of a run in which the broker is only asked to publish
    entries of the plan, and whose outcome, if any, is a normal return or
    the error of a publish or a missing entry. *)
Definition onPlan (s : Session) (o : option Completion) (s' : Session) : Prop :=
  testMessages s' = testMessages s /\
  (exists new,
     events s' = events s ++ new /\ Forall (planEvent (testMessages s)) new) /\
  (o = None \/ o = Some Normal \/ o = Some (Throw PublishError) \/
   o = Some (Throw TypeError)).

(** A broker that cannot be reached. *)
Definition offline : Env :=
  {| amqp_connect := fun _ _ => false;
     createChannel := fun _ => true;
     channel_publish := fun _ _ => true;
     channel_close := fun _ => true;
     connection_close := fun _ => true;
     Date_now := fun n => 1000 * Z.of_nat n;
     Math_random := fun n => {| numer := n; slack := 2 |} |}.

(** A second exchange of the name X, of another kind. *)
Definition exchangeX' : Exchange.t :=
  {| Exchange.name := "X"; Exchange.vhost := "/"; Exchange.type := "fanout";
     Exchange.durable := false; Exchange.auto_delete := false;
     Exchange.internal := false; Exchange.arguments := [] |}.

(** The scenario prepared, with no binding at all. *)
Definition unbound : Session :=
  snd (prepTests calm
         (constructor "amqp://localhost" [exchangeX] [] None (Some 5))).

(** ** Sequences of calls *)

(** A call of a method of the class by its user. *)
Inductive Call :=
| CallConnectToRabbitMQ
| CallPublishMessage (exchangeName key : string) (msgObj : Message)
| CallCloseConnection
| CallPrepTests
| CallRunTest (fuel : nat) (type : string)
| CallTakeSnapShot (startDate : option Z) (type : string)
| CallUpdateRabbitStressTest (rabbitAddress : option string)
    (exchanges : option (list Exchange.t)) (bindings : option (list Binding.t))
    (message : option Message)
| CallUpdateTarget (target : JsValue).

(** The session after the call, whether it returned or threw. *)
Definition perform (env : Env) (c : Call) (s : Session) : Session :=
  match c with
  | CallConnectToRabbitMQ => snd (connectToRabbitMQ env s)
  | CallPublishMessage n k m => snd (publishMessage env n k m s)
  | CallCloseConnection => snd (closeConnection env s)
  | CallPrepTests => snd (prepTests env s)
  | CallRunTest fuel type => snd (runTest env fuel type s)
  | CallTakeSnapShot startDate type => takeSnapShot env startDate type s
  | CallUpdateRabbitStressTest a excs bs m => updateRabbitStressTest a excs bs m s
  | CallUpdateTarget v => updateTarget v s
  end.

Definition performAll (env : Env) (calls : list Call) (s : Session) : Session :=
  fold_left (fun s c => perform env c s) calls s.

(** What every session keeps from its construction on. *)
Record wellFormed (s : Session) : Prop := {
  wf_target : target s <> 0;
  wf_counter :
    0 <= totalMessagesSent s <= Z.of_nat (length (publications (events s)));
  wf_ready : readyToTest s = true -> connection s = true /\ channel s = true;
  wf_history :
    Forall (fun snap => SnapShot.target snap <> 0 /\
                        0 <= SnapShot.totalMessagesSent snap)
      (snapShots s)
}.

(** A reliable broker whose clock stands still for the reading at the start
    of a run and the 57 readings after it, and is an hour later from then
    on. *)
Definition hourglass : Env :=
  {| amqp_connect := fun _ _ => true;
     createChannel := fun _ => true;
     channel_publish := fun _ _ => true;
     channel_close := fun _ => true;
     connection_close := fun _ => true;
     Date_now := fun n => if (n <=? 57)%nat then 0 else 3600000;
     Math_random := fun n => {| numer := n; slack := 2 |} |}.

(** The fields of a snapshot that hold values.  The three others,
    [exchanges], [bindings] and [testMessages], hold references in the
    source; the array behind [testMessages] is the live plan, which a later
    [prepTests] grows. *)
Definition recorded (snap : SnapShot.t)
    : string * string * Z * Z * option Z * Z * float * float :=
  (SnapShot.rabbitAddress snap, SnapShot.testType snap,
   SnapShot.totalMessagesSent snap, SnapShot.target snap,
   SnapShot.start snap, SnapShot.end_ snap,
   SnapShot.testDuration snap, SnapShot.messageSuccessRate snap).

(** * Properties *)

(** ** Reading the event log *)

Lemma publications_app (l1 l2 : list Event) :
  publications (l1 ++ l2) = publications l1 ++ publications l2.
Proof.
  induction l1 as [|e l1 IH]; simpl; [reflexivity|].
  destruct e; simpl; rewrite ?IH; reflexivity.
Qed.

Lemma clean_app (l1 l2 : list Event) : clean l1 -> clean l2 -> clean (l1 ++ l2).
Proof. unfold clean. intros H1 H2. apply Forall_app. split; assumption. Qed.

Lemma clean_no_failure (evs : list Event) (p : Publication) :
  clean evs -> EvPublishFailed p ∈ evs -> False.
Proof.
  unfold clean. intros Hc Hin.
  rewrite Forall_forall in Hc. specialize (Hc _ Hin). discriminate.
Qed.

Lemma sameSetup_refl (s : Session) : sameSetup s s.
Proof. constructor; reflexivity. Qed.

Lemma sameSetup_trans (s1 s2 s3 : Session) :
  sameSetup s1 s2 -> sameSetup s2 s3 -> sameSetup s1 s3.
Proof. intros [] []. constructor; congruence. Qed.

(** A step that touches neither the setup, the log nor the counter. *)
Lemma stretch_silent (s s' : Session) :
  sameSetup s s' -> events s' = events s ->
  totalMessagesSent s' = totalMessagesSent s ->
  stretch s (Some Normal) s'.
Proof.
  intros Hs He Ht. split; [assumption|].
  exists []. rewrite app_nil_r. simpl. repeat split; try assumption; try lia.
  constructor.
Qed.

Lemma stretch_refl (s : Session) : stretch s (Some Normal) s.
Proof. apply stretch_silent; [apply sameSetup_refl | reflexivity | reflexivity]. Qed.

(** Closes [stretch s (Some Normal) (f s)] for an assignment [f] to a
    scratch field, the clock or the random source. *)
Ltac silent := apply stretch_silent; [constructor | | ]; reflexivity.

Lemma stretch_trans (s1 s2 s3 : Session) (o : option Completion) :
  stretch s1 (Some Normal) s2 -> stretch s2 o s3 -> stretch s1 o s3.
Proof.
  intros [Hs1 (new1 & He1 & Ht1 & Hc1)] [Hs2 (new2 & He2 & Ht2 & Hc2)].
  split; [eapply sameSetup_trans; eassumption|].
  exists (new1 ++ new2). split; [|split].
  - rewrite He2, He1, app_assoc. reflexivity.
  - rewrite Ht2, Ht1, publications_app, length_app. lia.
  - destruct o as [[|e]|]; try (apply clean_app; assumption).
    destruct e; try (apply clean_app; assumption).
    destruct Hc2 as (pre & p & -> & Hpre).
    exists (new1 ++ pre), p. split; [apply app_assoc | apply clean_app; assumption].
Qed.

(** ** Every run is a stretch *)

Section Stretches.

Variable env : Env.

Lemma publishMessage_stretch (n k : string) (m : Message) (s : Session) :
  stretch s (Some (fst (publishMessage env n k m s)))
    (snd (publishMessage env n k m s)).
Proof.
  unfold publishMessage.
  destruct (channel s); [|apply stretch_refl].
  destruct (channel_publish env (events s) _); simpl.
  - split; [constructor; reflexivity|].
    eexists [_]. simpl. split; [reflexivity|]. simpl.
    split; [lia | repeat constructor].
  - split; [constructor; reflexivity|].
    eexists [_]. simpl. split; [reflexivity|]. simpl. split; [lia|].
    eexists [], _. split; [reflexivity | constructor].
Qed.

Lemma forEach_publish_stretch (l : list TestMessage.t) (s : Session) :
  stretch s (Some (fst (forEach (publishEntry env) l s)))
    (snd (forEach (publishEntry env) l s)).
Proof.
  revert s. induction l as [|msg l IH]; intros s; simpl.
  - apply stretch_refl.
  - pose proof (publishMessage_stretch (TestMessage.exchangeName msg)
      (TestMessage.key msg) (TestMessage.message msg) s) as H.
    change (publishMessage env _ _ _ s) with (publishEntry env msg s) in H.
    destruct (publishEntry env msg s) as [[|e] s1]; simpl in *.
    + eapply stretch_trans; [exact H | apply IH].
    + exact H.
Qed.

Lemma publishRandomNumber_stretch (s : Session) :
  stretch s (Some (fst (publishRandomNumber env s)))
    (snd (publishRandomNumber env s)).
Proof.
  unfold publishRandomNumber.
  destruct (randomNumber s) as [i|]; [|apply stretch_refl].
  destruct (testMessages s !! i) as [msg|]; [|apply stretch_refl].
  apply publishMessage_stretch.
Qed.

Lemma drawRandomNumber_stretch (s : Session) :
  stretch s (Some Normal) (drawRandomNumber env s).
Proof. silent. Qed.

Lemma while_stretch (cond : Session -> bool * Session)
    (body : Session -> Completion * Session) :
  (forall s, stretch s (Some Normal) (snd (cond s))) ->
  (forall s, stretch s (Some (fst (body s))) (snd (body s))) ->
  forall fuel s,
    stretch s (fst (while fuel cond body s)) (snd (while fuel cond body s)).
Proof.
  intros Hcond Hbody fuel.
  induction fuel as [|fuel IH]; intros s; simpl.
  - specialize (Hcond s). destruct (cond s) as [[] s1]; simpl in *.
    + destruct Hcond as [Hs (new & He & Ht & Hc)].
      split; [assumption|]. exists new. auto.
    + assumption.
  - specialize (Hcond s). destruct (cond s) as [[] s1]; simpl in *; [|assumption].
    specialize (Hbody s1). destruct (body s1) as [[|e] s2]; simpl in *.
    + eapply stretch_trans; [eassumption|].
      eapply stretch_trans; [eassumption|]. apply IH.
    + eapply stretch_trans; eassumption.
Qed.

Lemma belowTarget_stretch (s : Session) :
  stretch s (Some Normal) (snd (belowTarget s)).
Proof. apply stretch_refl. Qed.

Lemma withinDuration_stretch (s : Session) :
  stretch s (Some Normal) (snd (withinDuration env s)).
Proof. silent. Qed.

(** After the loop the source deletes a scratch field; nothing else. *)
Lemma stretch_then_silent (s s1 : Session) (o : option Completion)
    (f : Session -> Session) :
  (forall x, stretch x (Some Normal) (f x)) ->
  stretch s o s1 ->
  stretch s (fst (match (o, s1) with
                  | (Some Normal, s2) => (Some Normal, f s2)
                  | r => r
                  end))
    (snd (match (o, s1) with
          | (Some Normal, s2) => (Some Normal, f s2)
          | r => r
          end)).
Proof.
  intros Hf H. destruct o as [[|e]|]; simpl; try assumption.
  destruct H as [Hs (new & He & Ht & Hc)].
  destruct (Hf s1) as [Hs' (new' & He' & Ht' & Hc')].
  split; [eapply sameSetup_trans; eassumption|].
  exists (new ++ new'). rewrite He', He, app_assoc, Ht', Ht, publications_app, length_app.
  repeat split; [lia | apply clean_app; assumption].
Qed.

Lemma runCase_stretch (fuel : nat) (type : string) (s : Session) :
  stretch s (fst (runCase env fuel type s)) (snd (runCase env fuel type s)).
Proof.
  unfold runCase.
  destruct (String.eqb type "round-robin").
  { apply while_stretch; [apply belowTarget_stretch|].
    intros x. apply forEach_publish_stretch. }
  destruct (String.eqb type "random").
  { pose proof (while_stretch belowTarget
      (fun s => publishRandomNumber env (drawRandomNumber env s))
      belowTarget_stretch) as H.
    specialize (H (fun x => stretch_trans _ _ _ _ (drawRandomNumber_stretch x)
                              (publishRandomNumber_stretch _)) fuel s).
    destruct (while fuel belowTarget _ s) as [o s1]. simpl in H.
    apply (stretch_then_silent s s1 o (set_randomNumber None)); [|exact H].
    intros x. silent. }
  destruct (String.eqb type "extended-duration").
  { pose proof (while_stretch (withinDuration env)
      (fun s => forEach (publishEntry env) (testMessages s) s)
      withinDuration_stretch
      (fun x => forEach_publish_stretch _ x) fuel
      (set_testDuration (Some 3600000) s)) as H.
    destruct (while fuel (withinDuration env) _ _) as [o s1]. simpl in H.
    apply (stretch_then_silent s s1 o (set_testDuration None)).
    - intros x. silent.
    - eapply stretch_trans; [|exact H].
      silent. }
  destruct (String.eqb type "single-binding").
  { pose proof (while_stretch belowTarget (publishRandomNumber env)
      belowTarget_stretch publishRandomNumber_stretch fuel
      (drawRandomNumber env s)) as H.
    destruct (while fuel belowTarget _ _) as [o s1]. simpl in H.
    apply (stretch_then_silent s s1 o (set_randomNumber None)).
    - intros x. silent.
    - eapply stretch_trans; [apply drawRandomNumber_stretch | exact H]. }
  apply stretch_refl.
Qed.

End Stretches.

(** ** The ledger of a run *)

Lemma quietly_refl (s : Session) : quietly s s.
Proof.
  constructor; try reflexivity.
  exists []. rewrite app_nil_r. repeat split. constructor.
Qed.

Lemma quietly_log (e : Event) (s : Session) :
  isFailedPublish e = false -> publications [e] = [] -> quietly s (log e s).
Proof.
  intros He Hp. constructor; try reflexivity.
  exists [e]. repeat split; [|assumption]. repeat constructor. assumption.
Qed.

Lemma quietly_trans (s1 s2 s3 : Session) :
  quietly s1 s2 -> quietly s2 s3 -> quietly s1 s3.
Proof.
  intros [? ? ? ? ? ? ? (n1 & E1 & C1 & P1)] [? ? ? ? ? ? ? (n2 & E2 & C2 & P2)].
  constructor; try congruence.
  exists (n1 ++ n2). rewrite E2, E1, app_assoc, publications_app, P1, P2.
  repeat split. apply clean_app; assumption.
Qed.

Section Ledger.

Variable env : Env.

Lemma connectToRabbitMQ_quietly (s : Session) :
  quietly s (snd (connectToRabbitMQ env s)) /\
  fst (connectToRabbitMQ env s) <> Throw PublishError.
Proof.
  unfold connectToRabbitMQ.
  destruct (amqp_connect env (events s) (rabbitAddress s)).
  - destruct (createChannel env _); simpl; (split; [|discriminate]).
    + apply (quietly_trans _ (log (EvConnect (rabbitAddress s) true) s)).
      * apply quietly_log; reflexivity.
      * constructor; try reflexivity.
        exists [EvCreateChannel true]. repeat split. repeat constructor.
    + apply (quietly_trans _ (log (EvConnect (rabbitAddress s) true) s)).
      * apply quietly_log; reflexivity.
      * constructor; try reflexivity.
        exists [EvCreateChannel false]. repeat split. repeat constructor.
  - simpl. split; [|discriminate]. apply quietly_log; reflexivity.
Qed.

Lemma ensureConnected_quietly (s : Session) :
  quietly s (snd (ensureConnected env s)) /\
  fst (ensureConnected env s) <> Throw PublishError.
Proof.
  unfold ensureConnected.
  destruct (negb (connection s) || negb (channel s)).
  - apply connectToRabbitMQ_quietly.
  - simpl. split; [apply quietly_refl | discriminate].
Qed.

Lemma closeConnection_quietly (s : Session) :
  quietly s (snd (closeConnection env s)).
Proof.
  unfold closeConnection.
  assert (H1 : quietly s (snd (if channel s
                 then if channel_close env (events s)
                      then (Normal, log (EvChannelClose true) s)
                      else (Throw CloseError, log (EvChannelClose false) s)
                 else (Normal, s)))).
  { destruct (channel s); [|apply quietly_refl].
    destruct (channel_close env (events s)); apply quietly_log; reflexivity. }
  destruct (if channel s then _ else _) as [[|e] s1]; simpl in *; [|exact H1].
  eapply quietly_trans; [exact H1|].
  destruct (connection s1); [|apply quietly_refl].
  destruct (connection_close env (events s1)); apply quietly_log; reflexivity.
Qed.

(** The books of [runTest] on a session that is ready: what the log
    gained, and what became of the counter and the history, by outcome. *)
Lemma runTest_ledger (fuel : nat) (type : string) (s : Session) :
  readyToTest s = true ->
  exists new,
    events (snd (runTest env fuel type s)) = events s ++ new /\
    match fst (runTest env fuel type s) with
    | Some Normal =>
        clean new /\
        totalMessagesSent (snd (runTest env fuel type s)) = 0 /\
        exists snap,
          snapShots (snd (runTest env fuel type s)) = snapShots s ++ [snap] /\
          SnapShot.totalMessagesSent snap =
            totalMessagesSent s + Z.of_nat (length (publications new)) /\
          SnapShot.target snap = target s /\
          SnapShot.testType snap = type
    | Some (Throw PublishError) =>
        (exists pre p, new = pre ++ [EvPublishFailed p] /\ clean pre) /\
        snapShots (snd (runTest env fuel type s)) = snapShots s /\
        totalMessagesSent (snd (runTest env fuel type s)) =
          totalMessagesSent s + Z.of_nat (length (publications new))
    | _ =>
        clean new /\
        snapShots (snd (runTest env fuel type s)) = snapShots s /\
        totalMessagesSent (snd (runTest env fuel type s)) =
          totalMessagesSent s + Z.of_nat (length (publications new))
    end.
Proof.
  intros Hready. unfold runTest. rewrite Hready. simpl.
  destruct (ensureConnected_quietly s) as [Hq Hne].
  destruct (ensureConnected env s) as [[|e] s1]; simpl in *.
  - destruct Hq as [Hsn Hto Hta Htm Hst Hcl Hrd (n1 & E1 & C1 & P1)].
    pose proof (runCase_stretch env fuel type (markStart env s1)) as H.
    destruct (runCase env fuel type (markStart env s1)) as [o s2].
    simpl in H. destruct H as [Hs (n2 & E2 & T2 & O2)].
    simpl in E2, T2. destruct Hs as [_ _ _ _ _ Hsn2 _ Hta2 _ _ _].
    simpl in Hsn2, Hta2.
    destruct o as [[|e]|]; simpl.
    + destruct (closeConnection_quietly (takeSnapShot env (start s2) type s2))
        as [Hsn3 _ _ _ _ _ _ (n3 & E3 & C3 & P3)].
      exists (n1 ++ n2 ++ n3). unfold finish. simpl.
      rewrite E3. simpl. rewrite E2, E1, <- !app_assoc.
      split; [reflexivity|].
      split; [repeat apply clean_app; assumption|].
      split; [reflexivity|].
      rewrite Hsn3. simpl. rewrite Hsn2, Hsn. eexists. split; [reflexivity|].
      simpl. rewrite !publications_app, P1, P3, app_nil_r. simpl.
      rewrite T2, Hto, Hta2, Hta. repeat split.
    + exists (n1 ++ n2). rewrite E2, E1, <- app_assoc, publications_app, P1.
      simpl. split; [reflexivity|].
      destruct e; simpl;
        try (split; [apply clean_app; assumption|]; split; congruence).
      destruct O2 as (pre & p & -> & Hpre).
      split; [|split; congruence].
      exists (n1 ++ pre), p. rewrite app_assoc.
      split; [reflexivity | apply clean_app; assumption].
    + exists (n1 ++ n2). rewrite E2, E1, <- app_assoc, publications_app, P1.
      simpl. split; [reflexivity|].
      split; [apply clean_app; assumption|]. split; congruence.
  - destruct Hq as [Hsn Hto Hta Htm Hst Hcl Hrd (n1 & E1 & C1 & P1)].
    exists n1. split; [assumption|]. rewrite P1. simpl.
    destruct e; try (repeat split; [assumption | assumption | lia]).
    contradiction Hne. reflexivity.
Qed.

End Ledger.

(** ** Runs against a reliable broker *)

Lemma randomIndex_lt (r : Random01) (len : nat) :
  (0 < len)%nat -> (randomIndex r len < len)%nat.
Proof.
  intros Hlen. unfold randomIndex.
  apply Nat.Div0.div_lt_upper_bound. nia.
Qed.

Lemma quietly_publications (s s' : Session) :
  quietly s s' -> publications (events s') = publications (events s).
Proof.
  intros [_ _ _ _ _ _ _ (new & E & _ & P)].
  rewrite E, publications_app, P. apply app_nil_r.
Qed.

Section Reliable.

Variable env : Env.
Hypothesis Hrel : reliable env.

Lemma publishEntry_reliable (msg : TestMessage.t) (s : Session) :
  channel s = true ->
  publishEntry env msg s =
    (Normal,
     set_totalMessagesSent (totalMessagesSent s + 1)
       (log (EvPublish (publicationOf msg)) s)).
Proof.
  intros Hch. unfold publishEntry, publishMessage. rewrite Hch.
  destruct Hrel as (_ & _ & Hpub). rewrite Hpub. reflexivity.
Qed.

(** One pass over the plan publishes every entry. *)
Lemma forEach_publish_reliable (l : list TestMessage.t) (s : Session) :
  channel s = true ->
  exists s',
    forEach (publishEntry env) l s = (Normal, s') /\
    channel s' = true /\
    testMessages s' = testMessages s /\
    target s' = target s /\
    totalMessagesSent s' = totalMessagesSent s + Z.of_nat (length l) /\
    publications (events s') =
      publications (events s) ++ map publicationOf l.
Proof.
  revert s. induction l as [|msg l IH]; intros s Hch; simpl.
  - exists s. rewrite app_nil_r. repeat split; try assumption. lia.
  - rewrite publishEntry_reliable by assumption. simpl.
    destruct (IH (set_totalMessagesSent (totalMessagesSent s + 1)
                    (log (EvPublish (publicationOf msg)) s)) Hch)
      as (s' & Hrun & Hch' & Htm & Hta & Hto & Hev).
    exists s'. simpl in *. rewrite publications_app in Hev. simpl in Hev.
    rewrite <- app_assoc in Hev. simpl in Hev.
    repeat split; try assumption. lia.
Qed.

Lemma ensureConnected_reliable (s : Session) :
  exists s1,
    ensureConnected env s = (Normal, s1) /\ channel s1 = true /\ quietly s s1.
Proof.
  pose proof (ensureConnected_quietly env s) as [Hq _].
  unfold ensureConnected in *.
  destruct (negb (connection s) || negb (channel s)) eqn:Hc.
  - unfold connectToRabbitMQ in *.
    destruct Hrel as (Hconn & Hchan & _).
    rewrite Hconn in *. rewrite Hchan in *.
    eexists. split; [reflexivity|]. split; [reflexivity | exact Hq].
  - exists s. split; [reflexivity|]. split; [|exact Hq].
    destruct (connection s), (channel s); simpl in Hc; congruence.
Qed.

(** The counting loop leaves as soon as the counter has passed the
    target, when every turn of the body adds [step] to it. *)
Lemma while_belowTarget_exit (body : Session -> Completion * Session)
    (I : Session -> Prop) (step : Z) :
  1 <= step ->
  (forall s, I s -> totalMessagesSent s <= target s ->
     exists s', body s = (Normal, s') /\ I s' /\ target s' = target s /\
                totalMessagesSent s' = totalMessagesSent s + step) ->
  forall fuel s,
    I s -> target s - totalMessagesSent s < Z.of_nat fuel ->
    exists s',
      while fuel belowTarget body s = (Some Normal, s') /\ I s' /\
      target s' = target s /\
      target s < totalMessagesSent s' /\
      totalMessagesSent s' <= Z.max (totalMessagesSent s) (target s + step).
Proof.
  intros Hstep Hbody fuel.
  induction fuel as [|fuel IH]; intros s HI Hfuel; simpl.
  - destruct (totalMessagesSent s <=? target s) eqn:Hle; [lia|].
    exists s. repeat split; try assumption; lia.
  - destruct (totalMessagesSent s <=? target s) eqn:Hle.
    + apply Z.leb_le in Hle.
      destruct (Hbody s HI Hle) as (s1 & Hrun & HI1 & Hta1 & Hto1).
      rewrite Hrun.
      destruct (IH s1 HI1) as (s' & Hw & HI' & Hta' & Hgt & Hmax); [lia|].
      exists s'. repeat split; try assumption; try lia.
    + apply Z.leb_gt in Hle.
      exists s. repeat split; try assumption; lia.
Qed.

(** Round-robin: passes over a plan that is not empty, each pass in the
    order of the plan. *)
Lemma round_robin_loop (s : Session) :
  channel s = true -> testMessages s <> [] ->
  exists s',
    while (Z.to_nat (target s - totalMessagesSent s + 1)) belowTarget
      (fun s => forEach (publishEntry env) (testMessages s) s) s
    = (Some Normal, s') /\
    target s < totalMessagesSent s' /\
    totalMessagesSent s' <=
      Z.max (totalMessagesSent s)
        (target s + Z.of_nat (length (testMessages s))) /\
    exists passes : nat,
      totalMessagesSent s' =
        totalMessagesSent s
        + Z.of_nat passes * Z.of_nat (length (testMessages s)) /\
      publications (events s') =
        publications (events s) ++
        concat (repeat (map publicationOf (testMessages s)) passes).
Proof.
  intros Hch Hne.
  destruct (while_belowTarget_exit
    (fun s => forEach (publishEntry env) (testMessages s) s)
    (fun x => channel x = true /\ testMessages x = testMessages s /\
              exists passes : nat,
                totalMessagesSent x =
                  totalMessagesSent s
                  + Z.of_nat passes * Z.of_nat (length (testMessages s)) /\
                publications (events x) =
                  publications (events s) ++
                  concat (repeat (map publicationOf (testMessages s)) passes))
    (Z.of_nat (length (testMessages s))))
    with (fuel := Z.to_nat (target s - totalMessagesSent s + 1)) (s := s)
    as (s' & Hw & (_ & _ & Hpasses) & _ & Hgt & Hmax).
  - destruct (testMessages s); [congruence | simpl; lia].
  - intros x (Hx1 & Hx2 & k & Hk1 & Hk2) _.
    destruct (forEach_publish_reliable (testMessages x) x Hx1)
      as (x' & Hrun & Hch' & Htm & Hta & Hto & Hev).
    exists x'. rewrite Hx2 in *.
    repeat split; try congruence.
    exists (S k). split; [lia|].
    rewrite Hev, Hk2, <- app_assoc. f_equal.
    change (repeat ?a (S k)) with (a :: repeat a k).
    rewrite repeat_cons, concat_app. simpl. rewrite app_nil_r. reflexivity.
  - split; [assumption|]. split; [reflexivity|].
    exists 0%nat. simpl. rewrite app_nil_r. split; [lia | reflexivity].
  - lia.
  - exists s'. repeat split; assumption.
Qed.

(** Random: one draw and one publication per turn. *)
Lemma random_loop (s : Session) :
  channel s = true -> testMessages s <> [] ->
  exists s',
    while (Z.to_nat (target s - totalMessagesSent s + 1)) belowTarget
      (fun s => publishRandomNumber env (drawRandomNumber env s)) s
    = (Some Normal, s') /\
    target s < totalMessagesSent s' /\
    totalMessagesSent s' <= Z.max (totalMessagesSent s) (target s + 1).
Proof.
  intros Hch Hne.
  destruct (while_belowTarget_exit
    (fun s => publishRandomNumber env (drawRandomNumber env s))
    (fun x => channel x = true /\ testMessages x = testMessages s) 1)
    with (fuel := Z.to_nat (target s - totalMessagesSent s + 1)) (s := s)
    as (s' & Hw & _ & _ & Hgt & Hmax).
  - lia.
  - intros x [Hx1 Hx2] _.
    unfold publishRandomNumber. simpl.
    destruct (lookup_lt_is_Some_2 (testMessages x)
      (randomIndex (Math_random env (randomDraws x)) (length (testMessages x))))
      as [msg Hmsg].
    { apply randomIndex_lt. rewrite Hx2.
      destruct (testMessages s); [congruence | simpl; lia]. }
    rewrite Hmsg. rewrite publishEntry_reliable by exact Hx1.
    eexists. split; [reflexivity|]. simpl. repeat split; assumption.
  - split; [assumption | reflexivity].
  - lia.
  - exists s'. repeat split; assumption.
Qed.

(** Single-binding: the entry drawn before the loop is the only one
    published. *)
Lemma single_binding_loop (s : Session) (i : nat) (msg : TestMessage.t) :
  channel s = true -> randomNumber s = Some i ->
  testMessages s !! i = Some msg ->
  exists s',
    while (Z.to_nat (target s - totalMessagesSent s + 1)) belowTarget
      (publishRandomNumber env) s
    = (Some Normal, s') /\
    target s < totalMessagesSent s' /\
    totalMessagesSent s' <= Z.max (totalMessagesSent s) (target s + 1) /\
    randomDraws s' = randomDraws s /\
    publications (events s') =
      publications (events s) ++
      repeat (publicationOf msg)
        (Z.to_nat (totalMessagesSent s' - totalMessagesSent s)).
Proof.
  intros Hch Hrn Hmsg.
  destruct (while_belowTarget_exit (publishRandomNumber env)
    (fun x => channel x = true /\ randomNumber x = Some i /\
              testMessages x !! i = Some msg /\
              randomDraws x = randomDraws s /\
              totalMessagesSent s <= totalMessagesSent x /\
              publications (events x) =
                publications (events s) ++
                repeat (publicationOf msg)
                  (Z.to_nat (totalMessagesSent x - totalMessagesSent s))) 1)
    with (fuel := Z.to_nat (target s - totalMessagesSent s + 1)) (s := s)
    as (s' & Hw & (_ & _ & _ & Hrd & _ & Hev) & _ & Hgt & Hmax).
  - lia.
  - intros x (Hx1 & Hx2 & Hx3 & Hx4 & Hx5 & Hx6) _.
    unfold publishRandomNumber. rewrite Hx2, Hx3.
    rewrite publishEntry_reliable by exact Hx1.
    eexists. split; [reflexivity|]. simpl.
    repeat split; try assumption; try lia.
    rewrite publications_app, Hx6. simpl.
    replace (Z.to_nat (totalMessagesSent x + 1 - totalMessagesSent s))
      with (S (Z.to_nat (totalMessagesSent x - totalMessagesSent s))) by lia.
    rewrite <- app_assoc. f_equal.
    symmetry. apply repeat_cons.
  - repeat split; try assumption; try lia.
    rewrite Z.sub_diag. simpl. symmetry. apply app_nil_r.
  - lia.
  - exists s'. repeat split; assumption.
Qed.

End Reliable.

Section ReliableRuns.

Variable env : Env.
Hypothesis Hrel : reliable env.

(** On a ready session the run connects if it must, and then everything
    turns on the loop. *)
Lemma runTest_reliable_unfold (s : Session) :
  readyToTest s = true ->
  exists s1,
    channel s1 = true /\ quietly s s1 /\
    forall fuel type,
      runTest env fuel type s =
        match runCase env fuel type (markStart env s1) with
        | (Some Normal, s2) => (Some Normal, finish env type s2)
        | r => r
        end.
Proof.
  intros Hready.
  destruct (ensureConnected_reliable env Hrel s) as (s1 & Hc & Hch & Hq).
  exists s1. split; [assumption|]. split; [assumption|].
  intros fuel type. unfold runTest. rewrite Hready, Hc. reflexivity.
Qed.

(** The end of a completed run: one snapshot with the counter and the
    target of that moment, then the counter is 0 again. *)
Lemma finish_books (type : string) (s : Session) :
  totalMessagesSent (finish env type s) = 0 /\
  randomDraws (finish env type s) = randomDraws s /\
  publications (events (finish env type s)) = publications (events s) /\
  exists snap,
    snapShots (finish env type s) = snapShots s ++ [snap] /\
    SnapShot.totalMessagesSent snap = totalMessagesSent s /\
    SnapShot.target snap = target s /\
    SnapShot.testType snap = type /\
    SnapShot.messageSuccessRate snap =
      messageSuccessRate (totalMessagesSent s) (target s).
Proof.
  unfold finish.
  pose proof (closeConnection_quietly env (takeSnapShot env (start s) type s))
    as Hq.
  pose proof (quietly_publications _ _ Hq) as Hp.
  destruct Hq as [Hsn _ _ _ _ _ Hrd _].
  simpl. rewrite Hrd, Hp, Hsn. simpl.
  repeat split. eexists. split; [reflexivity|]. repeat split.
Qed.

Lemma runCase_round_robin (s : Session) :
  channel s = true -> testMessages s <> [] ->
  exists fuel s',
    runCase env fuel "round-robin" s = (Some Normal, s') /\
    target s < totalMessagesSent s' /\
    totalMessagesSent s' <=
      Z.max (totalMessagesSent s)
        (target s + Z.of_nat (length (testMessages s))) /\
    exists passes : nat,
      totalMessagesSent s' =
        totalMessagesSent s
        + Z.of_nat passes * Z.of_nat (length (testMessages s)) /\
      publications (events s') =
        publications (events s) ++
        concat (repeat (map publicationOf (testMessages s)) passes).
Proof.
  intros Hch Hne.
  destruct (round_robin_loop env Hrel s Hch Hne) as (s' & Hw & Hb).
  exists (Z.to_nat (target s - totalMessagesSent s + 1)), s'.
  split; [|exact Hb]. unfold runCase. simpl. exact Hw.
Qed.

Lemma runCase_random (s : Session) :
  channel s = true -> testMessages s <> [] ->
  exists fuel s',
    runCase env fuel "random" s = (Some Normal, s') /\
    target s < totalMessagesSent s' /\
    totalMessagesSent s' <= Z.max (totalMessagesSent s) (target s + 1).
Proof.
  intros Hch Hne.
  destruct (random_loop env Hrel s Hch Hne) as (s' & Hw & Hb).
  exists (Z.to_nat (target s - totalMessagesSent s + 1)),
    (set_randomNumber None s').
  split; [|exact Hb]. unfold runCase. simpl. rewrite Hw. reflexivity.
Qed.

Lemma runCase_single_binding (s : Session) :
  channel s = true -> testMessages s <> [] ->
  exists fuel s' msg,
    runCase env fuel "single-binding" s = (Some Normal, s') /\
    testMessages s
      !! randomIndex (Math_random env (randomDraws s)) (length (testMessages s))
      = Some msg /\
    target s < totalMessagesSent s' /\
    totalMessagesSent s' <= Z.max (totalMessagesSent s) (target s + 1) /\
    randomDraws s' = S (randomDraws s) /\
    publications (events s') =
      publications (events s) ++
      repeat (publicationOf msg)
        (Z.to_nat (totalMessagesSent s' - totalMessagesSent s)).
Proof.
  intros Hch Hne.
  destruct (lookup_lt_is_Some_2 (testMessages s)
    (randomIndex (Math_random env (randomDraws s)) (length (testMessages s))))
    as [msg Hmsg].
  { apply randomIndex_lt. destruct (testMessages s); [congruence | simpl; lia]. }
  destruct (single_binding_loop env Hrel (drawRandomNumber env s) _ msg
              Hch eq_refl Hmsg) as (s' & Hw & Hgt & Hmax & Hrd & Hev).
  simpl in Hw, Hgt, Hmax, Hrd, Hev.
  exists (Z.to_nat (target s - totalMessagesSent s + 1)),
    (set_randomNumber None s'), msg.
  split; [unfold runCase; simpl; rewrite Hw; reflexivity|].
  simpl. repeat split; assumption.
Qed.


End ReliableRuns.

(** ** The claims about count-bounded runs *)

(** C1.  A count-bounded run (round-robin, random or single-binding) of a
    ready session whose counter is 0, whose target is a count (not
    negative) and whose plan is not empty, against a broker that accepts
    every call, terminates normally.  The count it ends with, which the run
    records in its snapshot before the counter is reset and which is the
    number of publications the broker accepted during the run, is strictly
    greater than the target; for round-robin it is at most the target plus
    the length of the plan, for random and single-binding it is exactly the
    target plus one. *)
Theorem count_bounded_run_overshoot (env : Env) (type : string) (s : Session) :
  reliable env ->
  readyToTest s = true ->
  totalMessagesSent s = 0 ->
  0 <= target s ->
  testMessages s <> [] ->
  type = "round-robin" \/ type = "random" \/ type = "single-binding" ->
  exists fuel s' snap new,
    runTest env fuel type s = (Some Normal, s') /\
    events s' = events s ++ new /\
    snapShots s' = snapShots s ++ [snap] /\
    SnapShot.totalMessagesSent snap = Z.of_nat (length (publications new)) /\
    target s < SnapShot.totalMessagesSent snap /\
    (type = "round-robin" ->
     SnapShot.totalMessagesSent snap
       <= target s + Z.of_nat (length (testMessages s))) /\
    (type = "random" \/ type = "single-binding" ->
     SnapShot.totalMessagesSent snap = target s + 1).
Proof.
  intros Hrel Hready Hzero Htarget Hplan Htype.
  destruct (runTest_reliable_unfold env Hrel s Hready) as (s1 & Hch & Hq & Hrun).
  destruct Hq as [Hsn Hto Hta Htm _ _ _ _].
  assert (Hch' : channel (markStart env s1) = true) by exact Hch.
  assert (Hplan' : testMessages (markStart env s1) <> [])
    by (simpl; rewrite Htm; exact Hplan).
  assert (Hloop : exists fuel s2,
    runCase env fuel type (markStart env s1) = (Some Normal, s2) /\
    target s < totalMessagesSent s2 /\
    (type = "round-robin" ->
     totalMessagesSent s2 <= target s + Z.of_nat (length (testMessages s))) /\
    (type = "random" \/ type = "single-binding" ->
     totalMessagesSent s2 = target s + 1)).
  { destruct Htype as [-> | [-> | ->]].
    - destruct (runCase_round_robin env Hrel _ Hch' Hplan')
        as (fuel & s2 & Hc & Hgt & Hmax & _).
      simpl in Hgt, Hmax. rewrite Hta in Hgt. rewrite Hta, Hto, Htm in Hmax.
      exists fuel, s2. split; [exact Hc|]. split; [exact Hgt|].
      split; [intros _; lia | intros [H | H]; discriminate H].
    - destruct (runCase_random env Hrel _ Hch' Hplan')
        as (fuel & s2 & Hc & Hgt & Hmax).
      simpl in Hgt, Hmax. rewrite Hta in Hgt. rewrite Hta, Hto in Hmax.
      exists fuel, s2. split; [exact Hc|]. split; [exact Hgt|].
      split; [intros H; discriminate H | intros _; lia].
    - destruct (runCase_single_binding env Hrel (markStart env s1) Hch' Hplan')
        as (fuel & s2 & msg & Hc & _ & Hgt & Hmax & _).
      simpl in Hgt, Hmax. rewrite Hta in Hgt. rewrite Hta, Hto in Hmax.
      exists fuel, s2. split; [exact Hc|]. split; [exact Hgt|].
      split; [intros H; discriminate H | intros _; lia]. }
  destruct Hloop as (fuel & s2 & Hc & Hgt & Hrr & Hone).
  destruct (finish_books env type s2) as (_ & _ & _ & snap & Hsnap & Htot & _).
  pose proof (runCase_stretch env fuel type (markStart env s1)) as Hst.
  rewrite Hc in Hst. destruct Hst as [[_ _ _ _ _ Hsn2 _ _ _ _ _] _].
  simpl in Hsn2.
  assert (Hfull : runTest env fuel type s = (Some Normal, finish env type s2))
    by (rewrite Hrun, Hc; reflexivity).
  destruct (runTest_ledger env fuel type s Hready) as (new & He & Hbooks).
  rewrite Hfull in He, Hbooks. cbn [fst snd] in He, Hbooks.
  destruct Hbooks as (_ & _ & snap' & Hsnap' & Htot' & _).
  assert (snap' = snap).
  { rewrite Hsnap, Hsn2, Hsn in Hsnap'.
    apply app_inj_tail in Hsnap'. symmetry. tauto. }
  subst snap'.
  exists fuel, (finish env type s2), snap, new.
  split; [exact Hfull|].
  split; [exact He|].
  split; [rewrite Hsnap; congruence|].
  split; [lia|].
  rewrite Htot. auto.
Qed.

(** C1 at the prepared scenario: random, one binding, target 5. *)
Lemma count_bounded_run_overshoot_witness :
  exists fuel s' snap new,
    runTest calm fuel "random" prepared = (Some Normal, s') /\
    events s' = events prepared ++ new /\
    snapShots s' = snapShots prepared ++ [snap] /\
    SnapShot.totalMessagesSent snap = Z.of_nat (length (publications new)) /\
    target prepared < SnapShot.totalMessagesSent snap /\
    ("random" = "round-robin" ->
     SnapShot.totalMessagesSent snap
       <= target prepared + Z.of_nat (length (testMessages prepared))) /\
    ("random" = "random" \/ "random" = "single-binding" ->
     SnapShot.totalMessagesSent snap = target prepared + 1).
Proof.
  apply (count_bounded_run_overshoot calm "random" prepared).
  - repeat split; intros; reflexivity.
  - reflexivity.
  - reflexivity.
  - vm_compute. discriminate.
  - vm_compute. discriminate.
  - right. left. reflexivity.
Defined.

(** C9 (counterexample).  A single-binding run does not always send target
    plus one messages.  The first run is aborted by a refused publish and
    leaves the counter at 2; nothing resets it, and the single-binding run
    that follows, with target 5 and a plan of one entry, completes after
    four publications, not six. *)
Lemma single_binding_after_abort_sends_fewer :
  let aborted := runTest flaky 10 "round-robin" prepared in
  let second := runTest flaky 10 "single-binding" (snd aborted) in
  fst aborted = Some (Throw PublishError) /\
  totalMessagesSent (snd aborted) = 2 /\
  target (snd aborted) = 5 /\
  length (testMessages (snd aborted)) = 1%nat /\
  fst second = Some Normal /\
  length (publications (events (snd second))) =
    (length (publications (events (snd aborted))) + 4)%nat.
Proof. vm_compute. repeat split. Qed.

(** C9 (amended).  A single-binding run of a ready session whose plan is
    not empty, against a reliable broker, draws from the random source
    exactly once, before its first publish; the draw selects an entry of
    the plan; and the publications of the run are that entry, repeated, and
    nothing else: as many times as the counter needs to pass the target,
    that is target plus one minus the counter the run starts with (none
    when that is not positive).  Started with the counter at 0 and a target
    that is a count, the run sends exactly target plus one messages and
    records that number in its snapshot. *)
Theorem single_binding_one_entry (env : Env) (s : Session) :
  reliable env ->
  readyToTest s = true ->
  testMessages s <> [] ->
  exists fuel s' entry snap,
    runTest env fuel "single-binding" s = (Some Normal, s') /\
    testMessages s
      !! randomIndex (Math_random env (randomDraws s)) (length (testMessages s))
      = Some entry /\
    randomDraws s' = S (randomDraws s) /\
    publications (events s') =
      publications (events s) ++
      repeat (publicationOf entry)
        (Z.to_nat (target s + 1 - totalMessagesSent s)) /\
    snapShots s' = snapShots s ++ [snap] /\
    (totalMessagesSent s = 0 -> 0 <= target s ->
     publications (events s') =
       publications (events s) ++
       repeat (publicationOf entry) (Z.to_nat (target s + 1)) /\
     SnapShot.totalMessagesSent snap = target s + 1).
Proof.
  intros Hrel Hready Hplan.
  destruct (runTest_reliable_unfold env Hrel s Hready) as (s1 & Hch & Hq & Hrun).
  pose proof (quietly_publications _ _ Hq) as Hp1.
  destruct Hq as [Hsn Hto Hta Htm _ _ Hrd _].
  destruct (runCase_single_binding env Hrel (markStart env s1))
    as (fuel & s2 & msg & Hc & Hmsg & Hgt & Hmax & Hrd2 & Hev).
  { exact Hch. }
  { simpl. rewrite Htm. exact Hplan. }
  simpl in Hmsg, Hgt, Hmax, Hrd2, Hev.
  rewrite Htm, Hrd in Hmsg. rewrite Hta in Hgt, Hmax. rewrite Hto in Hmax, Hev.
  destruct (finish_books env "single-binding" s2)
    as (_ & Hrd3 & Hp3 & snap & Hsnap & Hst & _).
  pose proof (runCase_stretch env fuel "single-binding" (markStart env s1)) as Hs.
  rewrite Hc in Hs. destruct Hs as [[_ _ _ _ _ Hsn2 _ _ _ _ _] _].
  simpl in Hsn2.
  assert (Hpubs : publications (events (finish env "single-binding" s2)) =
                  publications (events s) ++
                  repeat (publicationOf msg)
                    (Z.to_nat (target s + 1 - totalMessagesSent s))).
  { rewrite Hp3, Hev, Hp1. do 2 f_equal. lia. }
  exists fuel, (finish env "single-binding" s2), msg, snap.
  split; [rewrite Hrun, Hc; reflexivity|].
  split; [exact Hmsg|].
  split; [congruence|].
  split; [exact Hpubs|].
  split; [rewrite Hsnap; congruence|].
  intros Hzero Htarget.
  split; [rewrite Hpubs, Hzero; do 2 f_equal; lia | lia].
Qed.

(** C9 (amended) at the prepared scenario with target 5: six publications
    of key k. *)
Lemma single_binding_one_entry_witness :
  exists fuel s' entry snap,
    runTest calm fuel "single-binding" prepared = (Some Normal, s') /\
    testMessages prepared
      !! randomIndex (Math_random calm (randomDraws prepared))
           (length (testMessages prepared))
      = Some entry /\
    randomDraws s' = S (randomDraws prepared) /\
    publications (events s') =
      publications (events prepared) ++
      repeat (publicationOf entry)
        (Z.to_nat (target prepared + 1 - totalMessagesSent prepared)) /\
    snapShots s' = snapShots prepared ++ [snap] /\
    (totalMessagesSent prepared = 0 -> 0 <= target prepared ->
     publications (events s') =
       publications (events prepared) ++
       repeat (publicationOf entry) (Z.to_nat (target prepared + 1)) /\
     SnapShot.totalMessagesSent snap = target prepared + 1).
Proof.
  apply (single_binding_one_entry calm prepared).
  - repeat split; intros; reflexivity.
  - reflexivity.
  - vm_compute. discriminate.
Defined.


(** With no binding the plan is empty, and a thousand turns of the loop
    leave the run where it started: no outcome, nothing published. *)
Example round_robin_no_binding_spins :
  let s := snd (prepTests calm
                  (constructor "amqp://localhost" [exchangeX] [] None (Some 5))) in
  fst (runTest calm 1000 "round-robin" s) = None /\
  totalMessagesSent (snd (runTest calm 1000 "round-robin" s)) = 0 /\
  publications (events (snd (runTest calm 1000 "round-robin" s))) = [].
Proof. vm_compute. repeat split. Qed.


(** ** Compiling the plan *)

Lemma getProperty_Undefined (obj : gmap string Exchange.t) (k : string) :
  getProperty obj k = Undefined <-> obj !! k = None /\ k ∉ objectPrototypeNames.
Proof.
  unfold getProperty. destruct (obj !! k) as [exc|].
  - split; [discriminate | intros [H _]; discriminate H].
  - destruct (bool_decide (k ∈ objectPrototypeNames)) eqn:Hin.
    + apply bool_decide_eq_true in Hin.
      split; [discriminate | intros [_ H]; contradiction].
    + apply bool_decide_eq_false in Hin. split; auto.
Qed.

Lemma forEach_app {A : Type} (f : A -> Session -> Completion * Session)
    (l1 l2 : list A) (s : Session) :
  forEach f (l1 ++ l2) s = andThen (forEach f l1 s) (forEach f l2).
Proof.
  revert s. induction l1 as [|x l1 IH]; intros s; simpl.
  - reflexivity.
  - destruct (f x s) as [[|e] s1]; simpl; [apply IH | reflexivity].
Qed.

Lemma pushTestMessage_resolved (binding : Binding.t) (s : Session) :
  resolves s binding ->
  pushTestMessage binding s =
    (Normal, set_testMessages (testMessages s ++ [entryOf s binding]) s).
Proof.
  unfold resolves, pushTestMessage, entryOf.
  destruct (getProperty (exchanges s) (Binding.source binding));
    [reflexivity | reflexivity | intros H; contradiction H; reflexivity].
Qed.

Lemma pushTestMessage_dangling (binding : Binding.t) (s : Session) :
  getProperty (exchanges s) (Binding.source binding) = Undefined ->
  pushTestMessage binding s = (Throw TypeError, s).
Proof. unfold pushTestMessage. intros ->. reflexivity. Qed.

Lemma forEach_push_resolved (l : list Binding.t) (s : Session) :
  Forall (resolves s) l ->
  forEach pushTestMessage l s =
    (Normal, set_testMessages (testMessages s ++ map (entryOf s) l) s).
Proof.
  revert s. induction l as [|b l IH]; intros s Hall; simpl.
  - rewrite app_nil_r. destruct s; reflexivity.
  - inversion Hall as [|? ? Hb Hl]; subst.
    rewrite pushTestMessage_resolved by exact Hb. simpl.
    rewrite IH by exact Hl.
    unfold set_testMessages. simpl. rewrite <- app_assoc. reflexivity.
Qed.

(** The bindings up to the first one whose source is [undefined]. *)
Lemma first_dangling (s : Session) (l : list Binding.t) :
  (exists b, b ∈ l /\
     getProperty (exchanges s) (Binding.source b) = Undefined) ->
  exists pre b post,
    l = pre ++ b :: post /\ Forall (resolves s) pre /\
    getProperty (exchanges s) (Binding.source b) = Undefined.
Proof.
  induction l as [|x l IH]; intros (b & Hin & Hb).
  - inversion Hin.
  - destruct (getProperty (exchanges s) (Binding.source x)) eqn:Hx.
    + destruct IH as (pre & b' & post & -> & Hpre & Hb').
      { inversion Hin; subst; [congruence | eauto]. }
      exists (x :: pre), b', post. repeat split; [|assumption].
      constructor; [unfold resolves; congruence | assumption].
    + destruct IH as (pre & b' & post & -> & Hpre & Hb').
      { inversion Hin; subst; [congruence | eauto]. }
      exists (x :: pre), b', post. repeat split; [|assumption].
      constructor; [unfold resolves; congruence | assumption].
    + exists [], x, l. repeat split; [constructor | assumption].
Qed.

Section Compile.

Variable env : Env.
Hypothesis Hrel : reliable env.

Lemma connectToRabbitMQ_reliable (s : Session) :
  connectToRabbitMQ env s = (Normal, connected s).
Proof.
  unfold connectToRabbitMQ. destruct Hrel as (Hconn & Hchan & _).
  rewrite Hconn, Hchan. reflexivity.
Qed.

Lemma prepTests_resolved (s : Session) :
  Forall (resolves s) (bindings s) ->
  prepTests env s =
    (Normal,
     set_readyToTest true
       (set_testMessages (testMessages s ++ compiledPlan s) (connected s))).
Proof.
  intros Hall. unfold prepTests. rewrite connectToRabbitMQ_reliable. simpl.
  rewrite (forEach_push_resolved (bindings s) (connected s)) by exact Hall.
  reflexivity.
Qed.

Lemma prepTests_dangling (s : Session) (pre post : list Binding.t)
    (b : Binding.t) :
  bindings s = pre ++ b :: post ->
  Forall (resolves s) pre ->
  getProperty (exchanges s) (Binding.source b) = Undefined ->
  prepTests env s =
    (Throw TypeError,
     set_testMessages (testMessages s ++ map (entryOf s) pre) (connected s)).
Proof.
  intros Hb Hpre Hdang. unfold prepTests.
  rewrite connectToRabbitMQ_reliable. simpl. rewrite Hb, forEach_app.
  rewrite (forEach_push_resolved pre (connected s)) by exact Hpre.
  simpl. rewrite pushTestMessage_dangling by exact Hdang. reflexivity.
Qed.

End Compile.

(** C3 (counterexample).  On the scenario, [prepTests] run once leaves a
    plan of one entry, and run a second time on the same session, with the
    same exchanges and bindings, leaves a plan of two. *)
Lemma prepTests_twice_doubles :
  fst (prepTests calm scenario) = Normal /\
  length (testMessages (snd (prepTests calm scenario))) = 1%nat /\
  fst (prepTests calm (snd (prepTests calm scenario))) = Normal /\
  length (testMessages (snd (prepTests calm (snd (prepTests calm scenario)))))
    = 2%nat.
Proof. vm_compute. repeat split. Qed.

(** C3 (amended).  Compiling is deterministic, and it appends.  When the
    broker accepts the connection and every binding's source resolves,
    [prepTests] returns normally and adds to [testMessages] the plan of the
    session: one entry per binding, in the order of the bindings, a function
    of the address, the exchanges, the bindings and the message alone.
    Running it a second time on the same session adds the same entries once
    more. *)
Theorem prepTests_appends_plan (env : Env) (s : Session) :
  reliable env ->
  Forall (resolves s) (bindings s) ->
  (exists s1 s2,
     prepTests env s = (Normal, s1) /\
     testMessages s1 = testMessages s ++ compiledPlan s /\
     prepTests env s1 = (Normal, s2) /\
     testMessages s2 = testMessages s ++ compiledPlan s ++ compiledPlan s) /\
  length (compiledPlan s) = length (bindings s) /\
  (forall s',
     rabbitAddress s' = rabbitAddress s -> exchanges s' = exchanges s ->
     bindings s' = bindings s -> message s' = message s ->
     compiledPlan s' = compiledPlan s).
Proof.
  intros Hrel Hall. split; [|split].
  - eexists _, _.
    split; [apply prepTests_resolved; assumption|].
    split; [reflexivity|].
    split; [apply prepTests_resolved; [assumption | exact Hall]|].
    simpl. rewrite <- app_assoc. reflexivity.
  - unfold compiledPlan. apply length_map.
  - intros s' Ha He Hb Hm. unfold compiledPlan, entryOf.
    rewrite Ha, He, Hb, Hm. reflexivity.
Qed.

(** C3 (amended) at the scenario. *)
Lemma prepTests_appends_plan_witness :
  (exists s1 s2,
     prepTests calm scenario = (Normal, s1) /\
     testMessages s1 = testMessages scenario ++ compiledPlan scenario /\
     prepTests calm s1 = (Normal, s2) /\
     testMessages s2 =
       testMessages scenario ++ compiledPlan scenario ++ compiledPlan scenario) /\
  length (compiledPlan scenario) = length (bindings scenario) /\
  (forall s',
     rabbitAddress s' = rabbitAddress scenario ->
     exchanges s' = exchanges scenario ->
     bindings s' = bindings scenario -> message s' = message scenario ->
     compiledPlan s' = compiledPlan scenario).
Proof.
  apply (prepTests_appends_plan calm scenario).
  - repeat split; intros; reflexivity.
  - repeat constructor. vm_compute. discriminate.
Defined.

(** C5 (counterexample).  The second binding of [dangling] names no
    exchange: [prepTests] throws, and the plan, empty before, holds the
    entry of the first binding. *)
Lemma prepTests_dangling_leaves_entries :
  testMessages dangling = [] /\
  fst (prepTests calm dangling) = Throw TypeError /\
  length (testMessages (snd (prepTests calm dangling))) = 1%nat.
Proof. vm_compute. repeat split. Qed.

(** C5 (amended).  When some binding's source is neither an exchange nor a
    name inherited from [Object.prototype] (and the broker accepts the
    connection), [prepTests] throws at the first such binding: [readyToTest]
    keeps its value, and [testMessages] has gained the entries of the
    bindings before that one. *)
Theorem prepTests_dangling_binding (env : Env) (s : Session) :
  reliable env ->
  (exists b, b ∈ bindings s /\
     exchanges s !! Binding.source b = None /\
     Binding.source b ∉ objectPrototypeNames) ->
  exists pre b post s',
    bindings s = pre ++ b :: post /\
    Forall (resolves s) pre /\
    exchanges s !! Binding.source b = None /\
    prepTests env s = (Throw TypeError, s') /\
    readyToTest s' = readyToTest s /\
    testMessages s' = testMessages s ++ map (entryOf s) pre.
Proof.
  intros Hrel (b0 & Hin & Hnone & Hproto).
  destruct (first_dangling s (bindings s)) as (pre & b & post & Hb & Hpre & Hd).
  { exists b0. split; [assumption|]. apply getProperty_Undefined. auto. }
  exists pre, b, post. eexists.
  split; [exact Hb|]. split; [exact Hpre|].
  split; [apply getProperty_Undefined in Hd; tauto|].
  split; [apply (prepTests_dangling env Hrel s pre post b); assumption|].
  split; reflexivity.
Qed.

(** C5 (amended) at [dangling]. *)
Lemma prepTests_dangling_binding_witness :
  exists pre b post s',
    bindings dangling = pre ++ b :: post /\
    Forall (resolves dangling) pre /\
    exchanges dangling !! Binding.source b = None /\
    prepTests calm dangling = (Throw TypeError, s') /\
    readyToTest s' = readyToTest dangling /\
    testMessages s' = testMessages dangling ++ map (entryOf dangling) pre.
Proof.
  apply (prepTests_dangling_binding calm dangling).
  - repeat split; intros; reflexivity.
  - exists bindingY. split; [repeat constructor|].
    split; [vm_compute; reflexivity|].
    apply (bool_decide_unpack _). vm_compute. exact I.
Defined.

(** ** The scenario of one exchange and one binding *)

Lemma concat_repeat_singleton {A : Type} (x : A) (n : nat) :
  concat (repeat [x] n) = repeat x n.
Proof. induction n as [|n IH]; simpl; [reflexivity | rewrite IH; reflexivity]. Qed.

(** The topology of the scenario with any target that is a count: the plan
    has one entry, the run publishes it target plus one times, and the
    snapshot rates that count against the target. *)
Lemma one_binding_run (env : Env) (t : Z) :
  reliable env -> 0 < t ->
  exists s1 entry fuel s2 snap,
    prepTests env
      (constructor "amqp://localhost" [exchangeX] [bindingK] None (Some t))
    = (Normal, s1) /\
    testMessages s1 = [entry] /\
    publicationOf entry = publicationK /\
    runTest env fuel "round-robin" s1 = (Some Normal, s2) /\
    publications (events s2) = repeat (publicationOf entry) (Z.to_nat (t + 1)) /\
    snapShots s2 = [snap] /\
    SnapShot.target snap = t /\
    SnapShot.totalMessagesSent snap = t + 1 /\
    SnapShot.messageSuccessRate snap = messageSuccessRate (t + 1) t.
Proof.
  intros Hrel Ht.
  set (s0 := constructor "amqp://localhost" [exchangeX] [bindingK] None (Some t)).
  assert (Hall : Forall (resolves s0) (bindings s0)).
  { repeat constructor. vm_compute. discriminate. }
  pose proof (prepTests_resolved env Hrel s0 Hall) as Hprep.
  set (s1 := set_readyToTest true
               (set_testMessages (testMessages s0 ++ compiledPlan s0)
                  (connected s0))) in *.
  assert (Hplan : testMessages s1 = [entryOf s0 bindingK])
    by (vm_compute; reflexivity).
  assert (Htarget : target s1 = t).
  { simpl. destruct (t =? 0) eqn:E; [apply Z.eqb_eq in E; lia | reflexivity]. }
  destruct (runTest_reliable_unfold env Hrel s1 eq_refl)
    as (s1' & Hch & Hq & Hrun).
  pose proof (quietly_publications _ _ Hq) as Hp1.
  destruct Hq as [Hsn Hto Hta Htm _ _ _ _].
  destruct (runCase_round_robin env Hrel (markStart env s1'))
    as (fuel & s2 & Hc & Hgt & Hmax & passes & Hpasses & Hev).
  { exact Hch. }
  { simpl. rewrite Htm, Hplan. discriminate. }
  simpl in Hgt, Hmax, Hpasses, Hev.
  rewrite Hta, Htarget in Hgt, Hmax. rewrite Hto, Htm, Hplan in Hmax, Hpasses.
  rewrite Htm, Hplan, Hp1 in Hev.
  change (totalMessagesSent s1) with 0 in Hmax, Hpasses.
  change (publications (events s1)) with (@nil Publication) in Hev.
  simpl in Hmax, Hpasses, Hev.
  assert (Hcount : totalMessagesSent s2 = t + 1) by lia.
  assert (passes = Z.to_nat (t + 1)) by lia. subst passes.
  rewrite concat_repeat_singleton in Hev.
  destruct (finish_books env "round-robin" s2)
    as (_ & _ & Hp3 & snap & Hsnap & Htot & Htar & _ & Hrate).
  pose proof (runCase_stretch env fuel "round-robin" (markStart env s1')) as Hst.
  rewrite Hc in Hst. destruct Hst as [[_ _ _ _ _ Hsn2 _ Hta2 _ _ _] _].
  simpl in Hsn2, Hta2.
  assert (Htar2 : target s2 = t) by congruence.
  exists s1, (entryOf s0 bindingK), fuel, (finish env "round-robin" s2), snap.
  split; [exact Hprep|].
  split; [exact Hplan|].
  split; [reflexivity|].
  split; [rewrite Hrun, Hc; reflexivity|].
  split; [rewrite Hp3; exact Hev|].
  split; [rewrite Hsnap, Hsn2, Hsn; reflexivity|].
  split; [congruence|].
  split; [congruence|].
  rewrite Hrate, Hcount, Htar2. reflexivity.
Qed.

(** C8 (counterexample).  The rate is not the integer floor of 100 times
    the count over the target.  A duration-bounded run of the scenario,
    with target 100 and a clock that lets 57 passes through, completes with
    57 messages sent, and its snapshot rates them 56: the quotient 57/100
    is rounded to binary64 before it is multiplied by 100, and the floor of
    the product is one below the exact value 57. *)
Lemma success_rate_is_not_integer_division :
  let r := runTest hourglass 57 "extended-duration"
             (updateTarget (JsNum (Int 100)) prepared) in
  fst r = Some Normal /\
  map SnapShot.totalMessagesSent (snapShots (snd r)) = [57] /\
  map SnapShot.target (snapShots (snd r)) = [100] /\
  map SnapShot.messageSuccessRate (snapShots (snd r)) = [56%float] /\
  Z2float (57 * 100 / 100) = 57%float.
Proof. vm_compute. repeat split. Qed.

(** C8 (amended).  Exchange X of kind topic, one binding from X with key k,
    target 5, strategy round-robin, a reliable broker.  The compiled plan
    has one entry; the run publishes that entry, key k, six times and
    nothing else; the snapshot records six messages sent and a success
    rate of 120, above 100: nothing clamps it.  The rate is [Math.floor] of
    the binary64 product of the quotient and 100.  With target 7 the same
    run sends eight messages and rates them 114, the floor of a product
    that is more than 114.  The quotient is rounded before it is
    multiplied, so the rate can be one less than the integer floor of 100
    times the count over the target: 57 of 100 is rated 56. *)
Theorem scenario_round_robin (env : Env) :
  reliable env ->
  (exists s1 entry fuel s2 snap,
     prepTests env scenario = (Normal, s1) /\
     testMessages s1 = [entry] /\
     publicationOf entry =
       {| pub_exchange := "X"; pub_key := "k";
          pub_content := [("type", "Stress Test")] |} /\
     runTest env fuel "round-robin" s1 = (Some Normal, s2) /\
     publications (events s2) = repeat (publicationOf entry) 6 /\
     snapShots s2 = [snap] /\
     SnapShot.target snap = 5 /\
     SnapShot.totalMessagesSent snap = 6 /\
     SnapShot.messageSuccessRate snap = 120%float /\
     SnapShot.messageSuccessRate snap = Z2float (6 * 100 / 5)) /\
  (exists s1 fuel s2 snap,
     prepTests env
       (constructor "amqp://localhost" [exchangeX] [bindingK] None (Some 7))
     = (Normal, s1) /\
     runTest env fuel "round-robin" s1 = (Some Normal, s2) /\
     snapShots s2 = [snap] /\
     SnapShot.target snap = 7 /\
     SnapShot.totalMessagesSent snap = 8 /\
     SnapShot.messageSuccessRate snap = 114%float /\
     PrimFloat.ltb 114
       (PrimFloat.mul (PrimFloat.div (Z2float 8) (Z2float 7)) (Z2float 100))
     = true) /\
  messageSuccessRate 57 100 = 56%float /\
  Z2float (57 * 100 / 100) = 57%float.
Proof.
  intros Hrel. split; [|split; [|split; reflexivity]].
  - destruct (one_binding_run env 5 Hrel ltac:(lia))
      as (s1 & entry & fuel & s2 & snap & H1 & H2 & H3 & H4 & H5 & H6 & H7 & H8 & H9).
    exists s1, entry, fuel, s2, snap.
    split; [exact H1|]. split; [exact H2|]. split; [exact H3|].
    split; [exact H4|]. split; [exact H5|]. split; [exact H6|].
    split; [exact H7|]. split; [exact H8|].
    rewrite H9. split; reflexivity.
  - destruct (one_binding_run env 7 Hrel ltac:(lia))
      as (s1 & entry & fuel & s2 & snap & H1 & _ & _ & H4 & _ & H6 & H7 & H8 & H9).
    exists s1, fuel, s2, snap.
    split; [exact H1|]. split; [exact H4|]. split; [exact H6|].
    split; [exact H7|]. split; [exact H8|].
    rewrite H9. split; reflexivity.
Qed.

(** The rate is the floor of a binary64 product: 57 of 100 is rated 56. *)
Example messageSuccessRate_rounds : messageSuccessRate 57 100 = 56%float.
Proof. reflexivity. Qed.

(** C8 (amended) with the broker [calm]. *)
Lemma scenario_round_robin_witness :
  (exists s1 entry fuel s2 snap,
     prepTests calm scenario = (Normal, s1) /\
     testMessages s1 = [entry] /\
     publicationOf entry =
       {| pub_exchange := "X"; pub_key := "k";
          pub_content := [("type", "Stress Test")] |} /\
     runTest calm fuel "round-robin" s1 = (Some Normal, s2) /\
     publications (events s2) = repeat (publicationOf entry) 6 /\
     snapShots s2 = [snap] /\
     SnapShot.target snap = 5 /\
     SnapShot.totalMessagesSent snap = 6 /\
     SnapShot.messageSuccessRate snap = 120%float /\
     SnapShot.messageSuccessRate snap = Z2float (6 * 100 / 5)) /\
  (exists s1 fuel s2 snap,
     prepTests calm
       (constructor "amqp://localhost" [exchangeX] [bindingK] None (Some 7))
     = (Normal, s1) /\
     runTest calm fuel "round-robin" s1 = (Some Normal, s2) /\
     snapShots s2 = [snap] /\
     SnapShot.target snap = 7 /\
     SnapShot.totalMessagesSent snap = 8 /\
     SnapShot.messageSuccessRate snap = 114%float /\
     PrimFloat.ltb 114
       (PrimFloat.mul (PrimFloat.div (Z2float 8) (Z2float 7)) (Z2float 100))
     = true) /\
  messageSuccessRate 57 100 = 56%float /\
  Z2float (57 * 100 / 100) = 57%float.
Proof.
  apply (scenario_round_robin calm).
  repeat split; intros; reflexivity.
Defined.

(** ** Updating the session *)

(** C2 (counterexample).  The scenario has target 5; after
    [updateTarget(-5)] its target is -5. *)
Lemma updateTarget_takes_negative :
  target scenario = 5 /\
  target (updateTarget (JsNum (Int (-5))) scenario) = -5.
Proof. split; reflexivity. Qed.

(** C2 (amended).  [updateTarget(n)] sets the target to [n] when [n] is a
    number other than 0 and NaN, negative numbers included, and returns the
    session as it was for every other argument; it never changes another
    field, and it cannot throw.  So [updateTarget("abc")] changes nothing,
    [updateTarget(42)] sets 42 and [updateTarget(-5)] sets -5. *)
Theorem updateTarget_nonzero_number (v : JsValue) (s : Session) :
  (forall z, v = JsNum (Int z) -> z <> 0 -> target (updateTarget v s) = z) /\
  ((forall z, v = JsNum (Int z) -> z = 0) -> updateTarget v s = s) /\
  sameButTarget s (updateTarget v s) /\
  updateTarget (JsString "abc") s = s /\
  target (updateTarget (JsNum (Int 42)) s) = 42 /\
  target (updateTarget (JsNum (Int (-5))) s) = -5.
Proof.
  split; [|split; [|split]].
  - intros z -> Hz. unfold updateTarget. simpl.
    destruct (z =? 0) eqn:E; [apply Z.eqb_eq in E; contradiction | reflexivity].
  - intros Hzero. unfold updateTarget.
    destruct v as [| |b|[|z]|str|o]; simpl;
      try reflexivity; try (destruct b; reflexivity);
      try (destruct (negb (String.eqb str "")); reflexivity).
    rewrite (Hzero z eq_refl). reflexivity.
  - unfold updateTarget.
    destruct (truthy v && String.eqb (typeof v) "number");
      [|constructor; reflexivity].
    destruct v as [| |b|[|z]|str|o]; constructor; reflexivity.
  - repeat split.
Qed.

Lemma indexExchanges_from_other (l : list Exchange.t)
    (obj : gmap string Exchange.t) (k : string) :
  k ∉ map Exchange.name l ->
  fold_left (fun obj exc => <[Exchange.name exc := exc]> obj) l obj !! k
  = obj !! k.
Proof.
  revert obj. induction l as [|x l IH]; intros obj Hk; simpl; [reflexivity|].
  rewrite IH.
  - apply lookup_insert_ne. intros Heq. apply Hk. rewrite <- Heq. left.
  - intros Hin. apply Hk. right. exact Hin.
Qed.

Lemma indexExchanges_from_member (l : list Exchange.t)
    (obj : gmap string Exchange.t) (exc : Exchange.t) :
  NoDup (map Exchange.name l) -> exc ∈ l ->
  fold_left (fun obj exc => <[Exchange.name exc := exc]> obj) l obj
    !! Exchange.name exc
  = Some exc.
Proof.
  revert obj. induction l as [|x l IH]; intros obj Hnd Hin; simpl.
  - inversion Hin.
  - simpl in Hnd. apply NoDup_cons in Hnd as [Hx Hnd].
    inversion Hin; subst.
    + rewrite indexExchanges_from_other by exact Hx. apply lookup_insert_eq.
    + apply IH; assumption.
Qed.

(** C6.  [updateRabbitStressTest]: an argument that is omitted (or the
    empty address) leaves its field as it was, a provided argument replaces
    it (the exchanges indexed by name); the session is not ready, the plan
    is empty and the counter is 0 afterwards; the snapshot history and the
    target are the ones before the call.  Provided exchanges with distinct
    names are each found under their name, and no other name is. *)
Theorem updateRabbitStressTest_effect (address : option string)
    (excs : option (list Exchange.t)) (bs : option (list Binding.t))
    (msg : option Message) (s : Session) :
  let s' := updateRabbitStressTest address excs bs msg s in
  rabbitAddress s' =
    match address with
    | Some a => if String.eqb a "" then rabbitAddress s else a
    | None => rabbitAddress s
    end /\
  exchanges s' =
    match excs with
    | Some l => indexExchanges l
    | None => exchanges s
    end /\
  bindings s' = match bs with Some l => l | None => bindings s end /\
  message s' = match msg with Some m => m | None => message s end /\
  readyToTest s' = false /\
  testMessages s' = [] /\
  totalMessagesSent s' = 0 /\
  snapShots s' = snapShots s /\
  target s' = target s /\
  (forall l, excs = Some l ->
     (forall k, k ∉ map Exchange.name l -> exchanges s' !! k = None) /\
     (NoDup (map Exchange.name l) ->
      forall exc, exc ∈ l -> exchanges s' !! Exchange.name exc = Some exc)).
Proof.
  intros s'.
  assert (Hexc : exchanges s' =
                 match excs with
                 | Some l => indexExchanges l
                 | None => exchanges s
                 end).
  { subst s'. unfold updateRabbitStressTest.
    destruct address as [a|], excs as [l|], bs as [l'|], msg as [m|]; simpl;
      try destruct (String.eqb a ""); reflexivity. }
  assert (Hrest :
    rabbitAddress s' =
      match address with
      | Some a => if String.eqb a "" then rabbitAddress s else a
      | None => rabbitAddress s
      end /\
    bindings s' = match bs with Some l => l | None => bindings s end /\
    message s' = match msg with Some m => m | None => message s end /\
    readyToTest s' = false /\ testMessages s' = [] /\
    totalMessagesSent s' = 0 /\ snapShots s' = snapShots s /\
    target s' = target s).
  { subst s'. unfold updateRabbitStressTest.
    destruct address as [a|], excs as [l|], bs as [l'|], msg as [m|]; simpl;
      try destruct (String.eqb a ""); simpl; repeat split. }
  destruct Hrest as (Ha & Hb & Hm & Hr & Ht & Hc & Hs & Hg).
  do 9 (split; [assumption|]).
  intros l ->. rewrite Hexc. unfold indexExchanges. split.
  - intros k Hk. rewrite indexExchanges_from_other by exact Hk.
    apply lookup_empty.
  - intros Hnd exc Hin. apply indexExchanges_from_member; assumption.
Qed.

(** ** Failures and the counter *)

(** C7.  Whenever the log of a run shows a refused publish, the run has
    ended by throwing that error to its caller; the refused publish is the
    last event of the run and the only refusal (nothing is attempted after
    it); no snapshot was appended; and the counter holds what it held at the
    start plus the number of publications accepted before the failure. *)
Theorem publish_failure_aborts (env : Env) (fuel : nat) (type : string)
    (s : Session) (new : list Event) (p : Publication) :
  events (snd (runTest env fuel type s)) = events s ++ new ->
  EvPublishFailed p ∈ new ->
  fst (runTest env fuel type s) = Some (Throw PublishError) /\
  (exists pre q, new = pre ++ [EvPublishFailed q] /\ clean pre) /\
  snapShots (snd (runTest env fuel type s)) = snapShots s /\
  totalMessagesSent (snd (runTest env fuel type s)) =
    totalMessagesSent s + Z.of_nat (length (publications new)).
Proof.
  intros Hnew Hin.
  destruct (readyToTest s) eqn:Hready.
  - destruct (runTest_ledger env fuel type s Hready) as (new' & He & Hbooks).
    assert (new' = new) by (eapply app_inv_head; rewrite <- He; exact Hnew).
    subst new'.
    destruct (fst (runTest env fuel type s)) as [[|e]|].
    + destruct Hbooks as (Hc & _). destruct (clean_no_failure _ _ Hc Hin).
    + destruct e;
        try (destruct Hbooks as (Hc & _); destruct (clean_no_failure _ _ Hc Hin)).
      destruct Hbooks as (Hlast & Hsn & Hto). auto.
    + destruct Hbooks as (Hc & _). destruct (clean_no_failure _ _ Hc Hin).
  - unfold runTest in Hnew. rewrite Hready in Hnew. simpl in Hnew.
    assert (new = []).
    { apply (app_inv_head (events s)). rewrite app_nil_r. symmetry. exact Hnew. }
    subst new. inversion Hin.
Qed.

(** C7 on the prepared scenario with the broker [flaky]: two publications,
    then the refusal. *)
Lemma publish_failure_aborts_witness :
  fst (runTest flaky 10 "round-robin" prepared) = Some (Throw PublishError) /\
  (exists pre q,
     [EvPublish publicationK; EvPublish publicationK;
      EvPublishFailed publicationK] = pre ++ [EvPublishFailed q] /\
     clean pre) /\
  snapShots (snd (runTest flaky 10 "round-robin" prepared)) = snapShots prepared /\
  totalMessagesSent (snd (runTest flaky 10 "round-robin" prepared)) =
    totalMessagesSent prepared
    + Z.of_nat
        (length
           (publications
              [EvPublish publicationK; EvPublish publicationK;
               EvPublishFailed publicationK])).
Proof.
  apply (publish_failure_aborts flaky 10 "round-robin" prepared
           [EvPublish publicationK; EvPublish publicationK;
            EvPublishFailed publicationK] publicationK).
  - vm_compute. reflexivity.
  - repeat constructor.
Defined.

(** C4 (counterexample).  The first run is aborted by a refused publish and
    leaves the counter at 2.  The second run starts from 2, not from 0: it
    publishes four messages and records six. *)
Lemma leftover_count_after_abort :
  let aborted := runTest flaky 10 "round-robin" prepared in
  let second := runTest flaky 10 "round-robin" (snd aborted) in
  fst aborted = Some (Throw PublishError) /\
  totalMessagesSent (snd aborted) = 2 /\
  fst second = Some Normal /\
  map SnapShot.totalMessagesSent (snapShots (snd second)) = [6] /\
  length (publications (events (snd second))) =
    (length (publications (events (snd aborted))) + 4)%nat.
Proof. vm_compute. repeat split. Qed.

(** C4 (amended).  The counter is 0 after construction and after
    [updateRabbitStressTest]; a publish adds exactly one when the broker
    accepts it and nothing when it throws; a run that completes records in
    its snapshot the counter it started with plus the number of its
    accepted publications, and then sets the counter to 0; a run that has
    not completed (aborted, or still in its loop) holds the counter it
    started with plus the number of its accepted publications.  Nothing
    resets the counter when a run starts. *)
Theorem counter_discipline :
  (forall a excs bs m t, totalMessagesSent (constructor a excs bs m t) = 0) /\
  (forall a excs bs m s,
     totalMessagesSent (updateRabbitStressTest a excs bs m s) = 0) /\
  (forall env n k m s,
     totalMessagesSent (snd (publishMessage env n k m s)) =
       totalMessagesSent s
       + match fst (publishMessage env n k m s) with
         | Normal => 1
         | Throw _ => 0
         end) /\
  (forall env fuel type s,
     readyToTest s = true ->
     exists new,
       events (snd (runTest env fuel type s)) = events s ++ new /\
       match fst (runTest env fuel type s) with
       | Some Normal =>
           totalMessagesSent (snd (runTest env fuel type s)) = 0 /\
           exists snap,
             snapShots (snd (runTest env fuel type s)) = snapShots s ++ [snap] /\
             SnapShot.totalMessagesSent snap =
               totalMessagesSent s + Z.of_nat (length (publications new))
       | _ =>
           totalMessagesSent (snd (runTest env fuel type s)) =
             totalMessagesSent s + Z.of_nat (length (publications new))
       end).
Proof.
  split; [reflexivity|]. split; [|split].
  - intros a excs bs m s. unfold updateRabbitStressTest.
    destruct m; reflexivity.
  - intros env n k m s. unfold publishMessage.
    destruct (channel s); [|simpl; lia].
    destruct (channel_publish env (events s) _); simpl; lia.
  - intros env fuel type s Hready.
    destruct (runTest_ledger env fuel type s Hready) as (new & He & Hbooks).
    exists new. split; [exact He|].
    destruct (fst (runTest env fuel type s)) as [[|e]|].
    + destruct Hbooks as (_ & Hzero & snap & Hsn & Htot & _).
      split; [exact Hzero|]. exists snap. auto.
    + destruct e; tauto.
    + tauto.
Qed.

(** * Further properties of the class *)

(** ** What a run asks of the broker *)

Lemma onPlan_silent (s s' : Session) (o : option Completion) :
  testMessages s' = testMessages s -> events s' = events s ->
  o = None \/ o = Some Normal \/ o = Some (Throw PublishError) \/
    o = Some (Throw TypeError) ->
  onPlan s o s'.
Proof.
  intros Ht He Ho. split; [exact Ht|]. split; [|exact Ho].
  exists []. rewrite app_nil_r. split; [exact He | constructor].
Qed.

Lemma onPlan_trans (s1 s2 s3 : Session) (o : option Completion) :
  onPlan s1 (Some Normal) s2 -> onPlan s2 o s3 -> onPlan s1 o s3.
Proof.
  intros (Ht1 & (n1 & E1 & F1) & _) (Ht2 & (n2 & E2 & F2) & Ho).
  split; [congruence|]. split; [|exact Ho].
  exists (n1 ++ n2). split; [rewrite E2, E1, app_assoc; reflexivity|].
  apply Forall_app. split; [exact F1 | rewrite <- Ht1; exact F2].
Qed.

Section OnPlan.

Variable env : Env.

Lemma publishEntry_onPlan (msg : TestMessage.t) (s : Session) :
  msg ∈ testMessages s ->
  onPlan s (Some (fst (publishEntry env msg s))) (snd (publishEntry env msg s)).
Proof.
  intros Hin. unfold publishEntry, publishMessage.
  destruct (channel s); [|apply onPlan_silent; auto].
  destruct (channel_publish env (events s) _); simpl.
  - split; [reflexivity|]. split; [|auto].
    eexists [_]. split; [reflexivity|].
    constructor; [|constructor]. exists msg. split; [exact Hin | reflexivity].
  - split; [reflexivity|]. split; [|auto].
    eexists [_]. split; [reflexivity|].
    constructor; [|constructor]. exists msg. split; [exact Hin | reflexivity].
Qed.

Lemma forEach_publish_onPlan (l : list TestMessage.t) (s : Session) :
  (forall msg, msg ∈ l -> msg ∈ testMessages s) ->
  onPlan s (Some (fst (forEach (publishEntry env) l s)))
    (snd (forEach (publishEntry env) l s)).
Proof.
  revert s. induction l as [|msg l IH]; intros s Hsub; simpl.
  - apply onPlan_silent; auto.
  - pose proof (publishEntry_onPlan msg s (Hsub msg ltac:(left))) as H.
    destruct (publishEntry env msg s) as [[|e] s1]; simpl in *; [|exact H].
    eapply onPlan_trans; [exact H|]. apply IH.
    intros m Hm. destruct H as (Ht & _). rewrite Ht. apply Hsub. right. exact Hm.
Qed.

Lemma publishRandomNumber_onPlan (s : Session) :
  onPlan s (Some (fst (publishRandomNumber env s)))
    (snd (publishRandomNumber env s)).
Proof.
  unfold publishRandomNumber.
  destruct (randomNumber s) as [i|]; [|apply onPlan_silent; auto].
  destruct (testMessages s !! i) as [msg|] eqn:Hmsg; [|apply onPlan_silent; auto].
  apply publishEntry_onPlan. eapply list_elem_of_lookup_2. exact Hmsg.
Qed.

Lemma while_onPlan (cond : Session -> bool * Session)
    (body : Session -> Completion * Session) :
  (forall s, onPlan s (Some Normal) (snd (cond s))) ->
  (forall s, onPlan s (Some (fst (body s))) (snd (body s))) ->
  forall fuel s,
    onPlan s (fst (while fuel cond body s)) (snd (while fuel cond body s)).
Proof.
  intros Hcond Hbody fuel.
  induction fuel as [|fuel IH]; intros s; simpl.
  - specialize (Hcond s). destruct (cond s) as [[] s1]; simpl in *; [|assumption].
    destruct Hcond as (Ht & Hnew & _). split; [exact Ht|]. split; [exact Hnew | auto].
  - specialize (Hcond s). destruct (cond s) as [[] s1]; simpl in *; [|assumption].
    specialize (Hbody s1). destruct (body s1) as [[|e] s2]; simpl in *.
    + eapply onPlan_trans; [eassumption|].
      eapply onPlan_trans; [eassumption|]. apply IH.
    + eapply onPlan_trans; eassumption.
Qed.

Lemma onPlan_then_silent (s s1 : Session) (o : option Completion)
    (f : Session -> Session) :
  (forall x, testMessages (f x) = testMessages x /\ events (f x) = events x) ->
  onPlan s o s1 ->
  onPlan s (fst (match (o, s1) with
                 | (Some Normal, s2) => (Some Normal, f s2)
                 | r => r
                 end))
    (snd (match (o, s1) with
          | (Some Normal, s2) => (Some Normal, f s2)
          | r => r
          end)).
Proof.
  intros Hf H. destruct o as [[|e]|]; simpl; try assumption.
  eapply onPlan_trans; [exact H|].
  destruct (Hf s1). apply onPlan_silent; auto.
Qed.

Lemma runCase_onPlan (fuel : nat) (type : string) (s : Session) :
  onPlan s (fst (runCase env fuel type s)) (snd (runCase env fuel type s)).
Proof.
  assert (Hbelow : forall x, onPlan x (Some Normal) (snd (belowTarget x)))
    by (intros x; apply onPlan_silent; auto).
  assert (Hpass : forall x,
    onPlan x (Some (fst (forEach (publishEntry env) (testMessages x) x)))
      (snd (forEach (publishEntry env) (testMessages x) x)))
    by (intros x; apply forEach_publish_onPlan; auto).
  unfold runCase.
  destruct (String.eqb type "round-robin").
  { apply (while_onPlan belowTarget
             (fun s => forEach (publishEntry env) (testMessages s) s)); assumption. }
  destruct (String.eqb type "random").
  { pose proof (while_onPlan belowTarget
      (fun s => publishRandomNumber env (drawRandomNumber env s)) Hbelow) as H.
    specialize (H (fun x => onPlan_trans _ _ _ _
      (onPlan_silent x (drawRandomNumber env x) (Some Normal) eq_refl eq_refl
         (or_intror (or_introl eq_refl)))
      (publishRandomNumber_onPlan _)) fuel s).
    destruct (while fuel belowTarget _ s) as [o s1]. simpl in H.
    apply (onPlan_then_silent s s1 o (set_randomNumber None)); [|exact H].
    intros x. split; reflexivity. }
  destruct (String.eqb type "extended-duration").
  { pose proof (while_onPlan (withinDuration env)
      (fun s => forEach (publishEntry env) (testMessages s) s)
      (fun x => onPlan_silent x _ (Some Normal) eq_refl eq_refl
                  (or_intror (or_introl eq_refl)))
      Hpass fuel (set_testDuration (Some 3600000) s)) as H.
    destruct (while fuel (withinDuration env) _ _) as [o s1]. simpl in H.
    apply (onPlan_then_silent s s1 o (set_testDuration None)).
    - intros x. split; reflexivity.
    - eapply onPlan_trans; [|exact H]. apply onPlan_silent; auto. }
  destruct (String.eqb type "single-binding").
  { pose proof (while_onPlan belowTarget (publishRandomNumber env)
      Hbelow publishRandomNumber_onPlan fuel (drawRandomNumber env s)) as H.
    destruct (while fuel belowTarget _ _) as [o s1]. simpl in H.
    apply (onPlan_then_silent s s1 o (set_randomNumber None)).
    - intros x. split; reflexivity.
    - eapply onPlan_trans; [|exact H]. apply onPlan_silent; auto. }
  apply onPlan_silent; auto.
Qed.

End OnPlan.

Section Trace.

Variable env : Env.

(** Connecting changes [connection], [channel] and the log, nothing else
    of the configuration. *)
Lemma ensureConnected_trace (s : Session) :
  let r := ensureConnected env s in
  (rabbitAddress (snd r) = rabbitAddress s /\
   exchanges (snd r) = exchanges s /\
   bindings (snd r) = bindings s /\
   message (snd r) = message s /\
   testMessages (snd r) = testMessages s /\
   readyToTest (snd r) = readyToTest s) /\
  (exists pre,
     events (snd r) = events s ++ pre /\
     Forall (fun e => isConnectEvent e = true) pre /\
     (connection s = true -> channel s = true -> pre = [])) /\
  (fst r = Normal -> connection (snd r) = true /\ channel (snd r) = true) /\
  (fst r = Normal \/ fst r = Throw ConnectionError \/ fst r = Throw ChannelError).
Proof.
  unfold ensureConnected, connectToRabbitMQ.
  destruct (connection s) eqn:Hc, (channel s) eqn:Hch; simpl;
    try (split; [repeat split|]; split;
         [exists []; rewrite app_nil_r; repeat split; constructor | auto]);
    destruct (amqp_connect env (events s) (rabbitAddress s)); simpl;
    try destruct (createChannel env _); simpl;
    (split; [repeat split|]; split;
     [eexists; unfold log; simpl; rewrite <- ?app_assoc;
      split; [reflexivity|]; split; [repeat constructor | discriminate]
     | split; [intros H; try discriminate H; auto | auto]]).
Qed.

Lemma closeConnection_trace (s : Session) :
  connection (snd (closeConnection env s)) = connection s /\
  channel (snd (closeConnection env s)) = channel s /\
  readyToTest (snd (closeConnection env s)) = readyToTest s /\
  exists post,
    events (snd (closeConnection env s)) = events s ++ post /\
    Forall (fun e => isCloseEvent e = true) post.
Proof.
  unfold closeConnection.
  destruct (channel s) eqn:Hch, (connection s) eqn:Hc; simpl;
    try destruct (channel_close env (events s)); simpl; rewrite ?Hc, ?Hch;
    try destruct (connection_close env _); simpl; rewrite ?Hc, ?Hch;
    (split; [reflexivity|]; split; [reflexivity|]; split; [reflexivity|]);
    first [ exists []; rewrite app_nil_r; split; [reflexivity | constructor]
          | eexists; unfold log; simpl; rewrite <- ?app_assoc;
            split; [reflexivity | repeat constructor] ].
Qed.

(** The log of a run: connect calls (none when the session holds a
    connection and a channel), then publishes of plan entries, then, when
    the run completes, close calls. *)
Lemma runTest_trace (fuel : nat) (type : string) (s : Session) :
  let r := runTest env fuel type s in
  exists pre mid post,
    events (snd r) = events s ++ pre ++ mid ++ post /\
    Forall (fun e => isConnectEvent e = true) pre /\
    (connection s = true -> channel s = true -> pre = []) /\
    Forall (planEvent (testMessages s)) mid /\
    Forall (fun e => isCloseEvent e = true) post /\
    (fst r <> Some Normal -> post = []) /\
    fst r <> Some (Throw CloseError) /\
    testMessages (snd r) = testMessages s /\
    readyToTest (snd r) = readyToTest s /\
    (readyToTest s = true -> fst r = Some Normal ->
     connection (snd r) = true /\ channel (snd r) = true).
Proof.
  unfold runTest. destruct (readyToTest s) eqn:Hready; simpl.
  2: { exists [], [], []. rewrite app_nil_r.
       repeat split; try constructor; try discriminate; auto. }
  destruct (ensureConnected_trace s)
    as ((_ & _ & _ & _ & Htm & Hrd) & (pre & Epre & Fpre & Hpre) & Hconn & Hout).
  destruct (ensureConnected env s) as [[|e] s1]; simpl in *.
  - destruct (Hconn eq_refl) as [Hc1 Hch1].
    pose proof (runCase_onPlan env fuel type (markStart env s1)) as Hplan.
    pose proof (runCase_stretch env fuel type (markStart env s1)) as Hst.
    destruct (runCase env fuel type (markStart env s1)) as [o s2].
    simpl in Hplan, Hst.
    destruct Hplan as (Htm2 & (mid & Emid & Fmid) & Ho).
    destruct Hst as [[_ _ _ Hrd2 _ _ _ _ Hc2 Hch2 _] _].
    simpl in Htm2, Emid, Fmid, Hrd2, Hc2, Hch2. rewrite Htm in Fmid.
    destruct o as [[|e]|]; simpl.
    + destruct (closeConnection_trace (takeSnapShot env (start s2) type s2))
        as (Hc3 & Hch3 & Hrd3 & post & Epost & Fpost).
      exists pre, mid, post. unfold finish. simpl.
      rewrite Epost. simpl. rewrite Emid, Epre, <- !app_assoc.
      split; [reflexivity|]. split; [exact Fpre|]. split; [exact Hpre|].
      split; [exact Fmid|]. split; [exact Fpost|].
      split; [intros H; contradiction H; reflexivity|].
      split; [discriminate|].
      pose proof (closeConnection_quietly env
                    (takeSnapShot env (start s2) type s2)) as [_ _ _ Htm3 _ _ _ _].
      split; [rewrite Htm3; simpl; congruence|].
      split; [rewrite Hrd3; simpl; congruence|].
      intros _ _. rewrite Hc3, Hch3. simpl. split; congruence.
    + exists pre, mid, []. rewrite app_nil_r, Emid, Epre, <- app_assoc.
      split; [reflexivity|]. split; [exact Fpre|]. split; [exact Hpre|].
      split; [exact Fmid|]. split; [constructor|]. split; [reflexivity|].
      split; [destruct Ho as [H|[H|[H|H]]]; rewrite H; discriminate|].
      split; [congruence|]. split; [congruence|].
      intros _ H. discriminate H.
    + exists pre, mid, []. rewrite app_nil_r, Emid, Epre, <- app_assoc.
      split; [reflexivity|]. split; [exact Fpre|]. split; [exact Hpre|].
      split; [exact Fmid|]. split; [constructor|]. split; [reflexivity|].
      split; [discriminate|]. split; [congruence|]. split; [congruence|].
      intros _ H. discriminate H.
  - exists pre, [], []. rewrite !app_nil_r.
    split; [exact Epre|]. split; [exact Fpre|]. split; [exact Hpre|].
    split; [constructor|]. split; [constructor|]. split; [reflexivity|].
    split; [destruct Hout as [H|[H|H]]; rewrite H; discriminate|].
    split; [exact Htm|]. split; [congruence|].
    intros _ H. discriminate H.
Qed.

End Trace.

(** X4.  Whatever the broker and the clock do, whatever the strategy and
    the fuel, every publish a run attempts, accepted or refused, is the
    publish of an entry of the session's plan. *)
Theorem run_publishes_only_plan_entries (env : Env) (fuel : nat)
    (type : string) (s : Session) :
  exists new,
    events (snd (runTest env fuel type s)) = events s ++ new /\
    forall p, EvPublish p ∈ new \/ EvPublishFailed p ∈ new ->
      exists msg, msg ∈ testMessages s /\ p = publicationOf msg.
Proof.
  destruct (runTest_trace env fuel type s)
    as (pre & mid & post & E & Fpre & _ & Fmid & Fpost & _).
  exists (pre ++ mid ++ post). split; [exact E|].
  rewrite Forall_forall in Fpre, Fmid, Fpost.
  intros p [Hin | Hin];
    apply elem_of_app in Hin as [Hin | Hin];
    try (specialize (Fpre _ Hin); discriminate Fpre);
    apply elem_of_app in Hin as [Hin | Hin];
    try (specialize (Fpost _ Hin); discriminate Fpost);
    exact (Fmid _ Hin).
Qed.

(** X5.  A failure to close never reaches the caller of [runTest], and
    close is only called by a run that completes: a run that throws, or is
    still in its loop, has made no close call, so an aborted run leaves the
    connection open. *)
Theorem close_only_after_completion (env : Env) (fuel : nat) (type : string)
    (s : Session) :
  fst (runTest env fuel type s) <> Some (Throw CloseError) /\
  exists new,
    events (snd (runTest env fuel type s)) = events s ++ new /\
    (fst (runTest env fuel type s) <> Some Normal ->
     forall e, e ∈ new -> isCloseEvent e = false).
Proof.
  destruct (runTest_trace env fuel type s)
    as (pre & mid & post & E & Fpre & _ & Fmid & _ & Hpost & Hclose & _).
  split; [exact Hclose|].
  exists (pre ++ mid ++ post). split; [exact E|].
  intros Hnot e Hin. rewrite (Hpost Hnot), app_nil_r in Hin.
  rewrite Forall_forall in Fpre, Fmid.
  apply elem_of_app in Hin as [Hin | Hin].
  - specialize (Fpre _ Hin). destruct e; simpl in *; congruence.
  - specialize (Fmid _ Hin). destruct e; simpl in *; tauto.
Qed.

Lemma closeConnection_calls_close (env : Env) (s : Session) :
  channel s = true ->
  exists ok, EvChannelClose ok ∈ events (snd (closeConnection env s)).
Proof.
  intros Hch. unfold closeConnection. rewrite Hch.
  destruct (channel_close env (events s)); simpl.
  - exists true. destruct (connection s); [destruct (connection_close env _)|];
      simpl; rewrite ?elem_of_app; rewrite ?list_elem_of_singleton; auto.
  - exists false. rewrite elem_of_app, list_elem_of_singleton. auto.
Qed.

(** X6.  [closeConnection] does not clear [connection] and [channel].  So a
    run that completes has called close on its channel and leaves the
    session ready with both fields set, and the next run, whatever its
    strategy, makes no connect call: it publishes on the channel that was
    closed. *)
Theorem no_reconnect_after_completed_run (env : Env) (fuel : nat)
    (type : string) (s : Session) :
  readyToTest s = true ->
  fst (runTest env fuel type s) = Some Normal ->
  let s1 := snd (runTest env fuel type s) in
  readyToTest s1 = true /\ connection s1 = true /\ channel s1 = true /\
  (exists ok, EvChannelClose ok ∈ events s1) /\
  forall fuel' type',
    exists new,
      events (snd (runTest env fuel' type' s1)) = events s1 ++ new /\
      forall e, e ∈ new -> isConnectEvent e = false.
Proof.
  intros Hready Hnormal s1.
  destruct (runTest_trace env fuel type s)
    as (_ & _ & _ & _ & _ & _ & _ & _ & _ & _ & _ & Hrd & Hconn).
  destruct (Hconn Hready Hnormal) as [Hc Hch].
  fold s1 in Hrd, Hc, Hch.
  split; [congruence|]. split; [exact Hc|]. split; [exact Hch|]. split.
  - subst s1. unfold runTest in *. rewrite Hready in *. simpl in *.
    destruct (ensureConnected_trace env s) as (_ & _ & Hok & _).
    destruct (ensureConnected env s) as [[|e] s0]; [|discriminate Hnormal].
    destruct (Hok eq_refl) as [_ Hch0].
    pose proof (runCase_stretch env fuel type (markStart env s0)) as Hst.
    destruct (runCase env fuel type (markStart env s0)) as [[[|e]|] s2];
      try discriminate Hnormal.
    destruct Hst as [[_ _ _ _ _ _ _ _ _ Hch2 _] _]. simpl in Hch2.
    simpl. unfold finish. simpl.
    apply closeConnection_calls_close. simpl in Hch0 |- *. congruence.
  - intros fuel' type'.
    destruct (runTest_trace env fuel' type' s1)
      as (pre & mid & post & E & _ & Hpre & Fmid & Fpost & _).
    rewrite (Hpre Hc Hch) in E. simpl in E.
    exists (mid ++ post). split; [exact E|].
    rewrite Forall_forall in Fmid, Fpost.
    intros e Hin. apply elem_of_app in Hin as [Hin | Hin].
    + specialize (Fmid _ Hin). destruct e; simpl in *; tauto.
    + specialize (Fpost _ Hin). destruct e; simpl in *; congruence.
Qed.

(** X6 at the prepared scenario: a round-robin run, then any run. *)
Lemma no_reconnect_after_completed_run_witness :
  let s1 := snd (runTest calm 10 "round-robin" prepared) in
  readyToTest s1 = true /\ connection s1 = true /\ channel s1 = true /\
  (exists ok, EvChannelClose ok ∈ events s1) /\
  forall fuel' type',
    exists new,
      events (snd (runTest calm fuel' type' s1)) = events s1 ++ new /\
      forall e, e ∈ new -> isConnectEvent e = false.
Proof.
  apply (no_reconnect_after_completed_run calm 10 "round-robin" prepared).
  - reflexivity.
  - vm_compute. reflexivity.
Defined.

(** ** Readiness, errors of [prepTests], and the history *)

Lemma perform_not_ready (env : Env) (c : Call) (s : Session) :
  c <> CallPrepTests -> readyToTest s = false ->
  readyToTest (perform env c s) = false.
Proof.
  intros Hc Hready.
  destruct c as [ | n k m | | | fuel type | sd type | a excs bs m | v ]; simpl.
  - unfold connectToRabbitMQ.
    destruct (amqp_connect env (events s) (rabbitAddress s)); simpl;
      [destruct (createChannel env _); simpl|]; exact Hready.
  - unfold publishMessage. destruct (channel s); [|exact Hready].
    destruct (channel_publish env (events s) _); exact Hready.
  - destruct (closeConnection_trace env s) as (_ & _ & Hrd & _). congruence.
  - contradiction Hc. reflexivity.
  - unfold runTest. rewrite Hready. exact Hready.
  - exact Hready.
  - unfold updateRabbitStressTest. destruct m; reflexivity.
  - unfold updateTarget.
    destruct (truthy v && String.eqb (typeof v) "number"); [|exact Hready].
    destruct v as [| |b|[|z]|str|o]; exact Hready.
Qed.

(** X1.  Only [prepTests] makes a session ready.  After the construction
    and any sequence of calls of the other methods, the session is not
    ready, and [runTest], whatever the strategy, returns normally and
    leaves it exactly as it was: no call to the broker, no snapshot. *)
Theorem runTest_before_prepTests (env : Env) (a : string)
    (excs : list Exchange.t) (bs : list Binding.t) (m : option Message)
    (t : option Z) (calls : list Call) :
  (forall c, c ∈ calls -> c <> CallPrepTests) ->
  let s := performAll env calls (constructor a excs bs m t) in
  readyToTest s = false /\
  forall fuel type, runTest env fuel type s = (Some Normal, s).
Proof.
  intros Hcalls s.
  assert (Hready : readyToTest s = false).
  { subst s. generalize (constructor a excs bs m t) (eq_refl : readyToTest
      (constructor a excs bs m t) = false).
    induction calls as [|c calls IH]; intros s0 H0; simpl; [exact H0|].
    apply IH.
    - intros c' Hc'. apply Hcalls. right. exact Hc'.
    - apply perform_not_ready; [apply Hcalls; left | exact H0]. }
  split; [exact Hready|].
  intros fuel type. unfold runTest. rewrite Hready. reflexivity.
Qed.

(** X1 on the scenario: the target is updated and a run is asked for, but
    [prepTests] was not called. *)
Lemma runTest_before_prepTests_witness :
  let s := performAll calm [CallUpdateTarget (JsNum (Int 42));
                            CallRunTest 3 "random"]
             (constructor "amqp://localhost" [exchangeX] [bindingK] None
                (Some 5)) in
  readyToTest s = false /\
  forall fuel type, runTest calm fuel type s = (Some Normal, s).
Proof.
  apply (runTest_before_prepTests calm "amqp://localhost" [exchangeX]
           [bindingK] None (Some 5)
           [CallUpdateTarget (JsNum (Int 42)); CallRunTest 3 "random"]).
  intros c Hc.
  apply elem_of_cons in Hc as [-> | Hc]; [discriminate|].
  apply list_elem_of_singleton in Hc. subst c. discriminate.
Defined.

Lemma pushTestMessage_frame (b : Binding.t) (s : Session) :
  let r := pushTestMessage b s in
  snapShots (snd r) = snapShots s /\
  readyToTest (snd r) = readyToTest s /\
  totalMessagesSent (snd r) = totalMessagesSent s /\
  events (snd r) = events s /\
  exchanges (snd r) = exchanges s /\
  (exists pushed, testMessages (snd r) = testMessages s ++ pushed) /\
  (fst r = Normal \/
   fst r = Throw TypeError /\
   getProperty (exchanges s) (Binding.source b) = Undefined).
Proof.
  unfold pushTestMessage.
  destruct (getProperty (exchanges s) (Binding.source b)); simpl;
    repeat split; auto; try (eexists; reflexivity).
  exists []. rewrite app_nil_r. reflexivity.
Qed.

Lemma forEach_push_frame (l : list Binding.t) (s : Session) :
  let r := forEach pushTestMessage l s in
  snapShots (snd r) = snapShots s /\
  readyToTest (snd r) = readyToTest s /\
  totalMessagesSent (snd r) = totalMessagesSent s /\
  events (snd r) = events s /\
  exchanges (snd r) = exchanges s /\
  (exists pushed, testMessages (snd r) = testMessages s ++ pushed) /\
  (fst r = Normal \/
   fst r = Throw TypeError /\
   exists b, b ∈ l /\
     getProperty (exchanges s) (Binding.source b) = Undefined).
Proof.
  revert s. induction l as [|b l IH]; intros s; simpl.
  - repeat split; auto. exists []. rewrite app_nil_r. reflexivity.
  - pose proof (pushTestMessage_frame b s) as Hb. simpl in Hb.
    destruct (pushTestMessage b s) as [[|e] s1]; simpl in *;
      destruct Hb as (B1 & B2 & B3 & B4 & B5 & (p1 & B6) & B7).
    + destruct (IH s1) as (H1 & H2 & H3 & H4 & H5 & (p2 & H6) & H7).
      rewrite H1, H2, H3, H4, H5, H6, B1, B2, B3, B4, B5, B6, <- app_assoc.
      repeat split. { eexists. reflexivity. }
      destruct H7 as [H7 | (H7 & b' & Hin & Hd)]; [left; exact H7|].
      right. split; [exact H7|]. exists b'.
      split; [right; exact Hin | rewrite <- B5; exact Hd].
    + repeat split; try assumption. { exists p1. exact B6. }
      destruct B7 as [B7 | (B7 & Hd)]; [discriminate B7|].
      right. split; [exact B7|]. exists b. split; [left | exact Hd].
Qed.

(** The cases of [prepTests], with the list of snapshots as the model holds
    it. *)
Lemma prepTests_cases (env : Env) (s : Session) :
  let r := prepTests env s in
  match fst r with
  | Normal => readyToTest (snd r) = true
  | Throw ConnectionError | Throw ChannelError =>
      testMessages (snd r) = testMessages s /\
      readyToTest (snd r) = readyToTest s
  | Throw TypeError =>
      readyToTest (snd r) = readyToTest s /\
      exists b, b ∈ bindings s /\
        getProperty (exchanges s) (Binding.source b) = Undefined
  | Throw _ => False
  end /\
  publications (events (snd r)) = publications (events s) /\
  totalMessagesSent (snd r) = totalMessagesSent s /\
  snapShots (snd r) = snapShots s /\
  exists pushed, testMessages (snd r) = testMessages s ++ pushed.
Proof.
  unfold prepTests.
  pose proof (connectToRabbitMQ_quietly env s) as [Hq _].
  pose proof (quietly_publications _ _ Hq) as Hp.
  destruct Hq as [Hsn Hto _ Htm _ _ _ _].
  assert (Hcfg : let c := connectToRabbitMQ env s in
            readyToTest (snd c) = readyToTest s /\
            exchanges (snd c) = exchanges s /\ bindings (snd c) = bindings s /\
            (fst c = Normal \/ fst c = Throw ConnectionError \/
             fst c = Throw ChannelError)).
  { unfold connectToRabbitMQ.
    destruct (amqp_connect env (events s) (rabbitAddress s)); simpl;
      [destruct (createChannel env _); simpl|]; repeat split; auto. }
  destruct (connectToRabbitMQ env s) as [[|e] s1]; simpl in *.
  - destruct Hcfg as (Hrd & Hex & Hbs & _).
    pose proof (forEach_push_frame (bindings s1) s1) as Hf. simpl in Hf.
    destruct (forEach pushTestMessage (bindings s1) s1) as [[|e] s2];
      simpl in *; destruct Hf as (F1 & F2 & F3 & F4 & F5 & (pushed & F6) & F7).
    + rewrite F4, F3, F1, F6, Htm. repeat split; try assumption.
      exists pushed. reflexivity.
    + destruct F7 as [F7 | (F7 & b & Hin & Hb)]; [discriminate F7|].
      injection F7 as ->. rewrite F4, F3, F1, F6, Htm, F2.
      repeat split; try assumption.
      * exists b. rewrite <- Hbs, <- Hex. auto.
      * exists pushed. reflexivity.
  - destruct Hcfg as (Hrd & _ & _ & [H | [H | H]]); try discriminate H;
      injection H as ->; repeat split; try assumption;
      exists []; rewrite app_nil_r; assumption.
Qed.

(** X2.  The outcomes of [prepTests], for every broker.  It returns
    normally with the session ready, or it throws one of three errors:
    the connection or the channel could not be opened, and then nothing
    was compiled and readiness is as before; or, a [TypeError], some
    binding names a source that is [undefined] on the exchanges object,
    and readiness is as before.  In no case does it publish, touch the
    counter, lose entries the plan already had, remove a snapshot or change
    what a snapshot recorded of its run (address, strategy, count, target,
    dates, rate).  The plan inside a snapshot is not among these: in the
    source it is the live array, which grows by the entries pushed. *)
Theorem prepTests_outcomes (env : Env) (s : Session) :
  let r := prepTests env s in
  match fst r with
  | Normal => readyToTest (snd r) = true
  | Throw ConnectionError | Throw ChannelError =>
      testMessages (snd r) = testMessages s /\
      readyToTest (snd r) = readyToTest s
  | Throw TypeError =>
      readyToTest (snd r) = readyToTest s /\
      exists b, b ∈ bindings s /\
        getProperty (exchanges s) (Binding.source b) = Undefined
  | Throw _ => False
  end /\
  publications (events (snd r)) = publications (events s) /\
  totalMessagesSent (snd r) = totalMessagesSent s /\
  map recorded (snapShots (snd r)) = map recorded (snapShots s) /\
  exists pushed, testMessages (snd r) = testMessages s ++ pushed.
Proof.
  pose proof (prepTests_cases env s) as H. simpl in H |- *.
  destruct H as (H1 & H2 & H3 & H4 & H5).
  split; [exact H1|]. split; [exact H2|]. split; [exact H3|].
  split; [rewrite H4; reflexivity | exact H5].
Qed.

(** X3.  When [runTest] throws the error of a connection or channel that
    could not be opened, the session had no connection or no channel, and
    the run published nothing, took no snapshot and left the counter. *)
Theorem runTest_connection_refused (env : Env) (fuel : nat) (type : string)
    (s : Session) :
  fst (runTest env fuel type s) = Some (Throw ConnectionError) \/
  fst (runTest env fuel type s) = Some (Throw ChannelError) ->
  (connection s = false \/ channel s = false) /\
  publications (events (snd (runTest env fuel type s)))
    = publications (events s) /\
  snapShots (snd (runTest env fuel type s)) = snapShots s /\
  totalMessagesSent (snd (runTest env fuel type s)) = totalMessagesSent s /\
  testMessages (snd (runTest env fuel type s)) = testMessages s.
Proof.
  unfold runTest. destruct (readyToTest s); simpl;
    [|intros [H | H]; discriminate H].
  pose proof (ensureConnected_quietly env s) as [Hq _].
  pose proof (quietly_publications _ _ Hq) as Hp.
  destruct Hq as [Hsn Hto _ Htm _ _ _ _].
  assert (Hwhy : fst (ensureConnected env s) <> Normal ->
                 connection s = false \/ channel s = false).
  { unfold ensureConnected.
    destruct (connection s), (channel s); simpl; auto.
    intros H. contradiction H. reflexivity. }
  destruct (ensureConnected env s) as [[|e] s1]; simpl in *.
  - pose proof (runCase_onPlan env fuel type (markStart env s1)) as (_ & _ & Ho).
    destruct (runCase env fuel type (markStart env s1)) as [[[|e]|] s2]; simpl in *;
      intros [H | H]; try discriminate H;
      destruct Ho as [Ho | [Ho | [Ho | Ho]]]; congruence.
  - intros _. split; [apply Hwhy; discriminate|]. auto.
Qed.

(** X3 with a broker that cannot be reached, on a ready session whose
    connection was never opened. *)
Lemma runTest_connection_refused_witness :
  (connection (set_readyToTest true scenario) = false \/
   channel (set_readyToTest true scenario) = false) /\
  publications
    (events (snd (runTest offline 10 "random" (set_readyToTest true scenario))))
    = publications (events (set_readyToTest true scenario)) /\
  snapShots (snd (runTest offline 10 "random" (set_readyToTest true scenario)))
    = snapShots (set_readyToTest true scenario) /\
  totalMessagesSent
    (snd (runTest offline 10 "random" (set_readyToTest true scenario)))
    = totalMessagesSent (set_readyToTest true scenario) /\
  testMessages (snd (runTest offline 10 "random" (set_readyToTest true scenario)))
    = testMessages (set_readyToTest true scenario).
Proof.
  apply (runTest_connection_refused offline 10 "random"
           (set_readyToTest true scenario)).
  left. vm_compute. reflexivity.
Defined.

(** ** The exchanges object and the compiled plan *)

Lemma indexExchanges_cases (l : list Exchange.t) (obj : gmap string Exchange.t)
    (k : string) :
  (exists exc, exc ∈ l /\ Exchange.name exc = k /\
     fold_left (fun obj exc => <[Exchange.name exc := exc]> obj) l obj !! k
     = Some exc) \/
  ((k ∉ map Exchange.name l) /\
   fold_left (fun obj exc => <[Exchange.name exc := exc]> obj) l obj !! k
   = obj !! k).
Proof.
  revert obj. induction l as [|x l IH]; intros obj; simpl.
  - right. split; [apply not_elem_of_nil | reflexivity].
  - destruct (IH (<[Exchange.name x := x]> obj))
      as [(exc & Hin & Hname & Hl) | (Hnot & Hl)].
    + left. exists exc. split; [right; exact Hin | auto].
    + destruct (decide (Exchange.name x = k)) as [Heq | Hne].
      * left. exists x. split; [left|]. split; [exact Heq|].
        rewrite Hl, <- Heq. apply lookup_insert_eq.
      * right. split.
        -- intros Hin. apply elem_of_cons in Hin as [Hin | Hin]; congruence.
        -- rewrite Hl. apply lookup_insert_ne. exact Hne.
Qed.

(** X7.  The exchanges are indexed by name, and of several exchanges of
    one name the last one given is the one found, by the constructor and
    by [updateRabbitStressTest] alike; a name that no exchange bears is not
    found. *)
Theorem exchanges_last_of_a_name_wins (l1 l2 : list Exchange.t)
    (exc : Exchange.t) :
  Exchange.name exc ∉ map Exchange.name l2 ->
  (forall a bs m t,
     exchanges (constructor a (l1 ++ exc :: l2) bs m t) !! Exchange.name exc
     = Some exc) /\
  (forall a bs m s,
     exchanges (updateRabbitStressTest a (Some (l1 ++ exc :: l2)) bs m s)
       !! Exchange.name exc
     = Some exc) /\
  (forall k a bs m t,
     k ∉ map Exchange.name (l1 ++ exc :: l2) ->
     exchanges (constructor a (l1 ++ exc :: l2) bs m t) !! k = None).
Proof.
  intros Hlast.
  assert (Hidx : indexExchanges (l1 ++ exc :: l2) !! Exchange.name exc = Some exc).
  { unfold indexExchanges. rewrite fold_left_app. simpl.
    rewrite indexExchanges_from_other by exact Hlast. apply lookup_insert_eq. }
  split; [|split].
  - intros. exact Hidx.
  - intros a bs m s. unfold updateRabbitStressTest.
    destruct a as [a|], bs, m; simpl; try destruct (negb (String.eqb a ""));
      exact Hidx.
  - intros k a bs m t Hk. simpl. unfold indexExchanges.
    rewrite indexExchanges_from_other by exact Hk. apply lookup_empty.
Qed.

(** X7 with two exchanges named X: the second, a fanout, is the one kept. *)
Lemma exchanges_last_of_a_name_wins_witness :
  (forall a bs m t,
     exchanges (constructor a ([exchangeX] ++ exchangeX' :: []) bs m t)
       !! Exchange.name exchangeX'
     = Some exchangeX') /\
  (forall a bs m s,
     exchanges
       (updateRabbitStressTest a (Some ([exchangeX] ++ exchangeX' :: [])) bs m s)
       !! Exchange.name exchangeX'
     = Some exchangeX') /\
  (forall k a bs m t,
     k ∉ map Exchange.name ([exchangeX] ++ exchangeX' :: []) ->
     exchanges (constructor a ([exchangeX] ++ exchangeX' :: []) bs m t) !! k
     = None).
Proof.
  apply (exchanges_last_of_a_name_wins [exchangeX] [] exchangeX').
  simpl. apply not_elem_of_nil.
Defined.

(** X8.  A session constructed from exchanges and bindings in which every
    binding's source is the name of one of the exchanges compiles, with a
    reliable broker, to a plan of one entry per binding, in the order of
    the bindings: each entry carries its binding's source and routing key,
    the kind of an exchange of that name, the address and the message of
    the session; and the session is ready. *)
Theorem prepTests_compiles_bindings (env : Env) (a : string)
    (excs : list Exchange.t) (bs : list Binding.t) (m : option Message)
    (t : option Z) :
  reliable env ->
  (forall b, b ∈ bs -> Binding.source b ∈ map Exchange.name excs) ->
  exists s1,
    prepTests env (constructor a excs bs m t) = (Normal, s1) /\
    readyToTest s1 = true /\
    length (testMessages s1) = length bs /\
    map TestMessage.exchangeName (testMessages s1) = map Binding.source bs /\
    map TestMessage.key (testMessages s1) = map Binding.routing_key bs /\
    Forall (fun entry =>
              TestMessage.rabbitAddress entry = a /\
              TestMessage.message entry = message (constructor a excs bs m t) /\
              exists exc, exc ∈ excs /\
                Exchange.name exc = TestMessage.exchangeName entry /\
                TestMessage.exchangeType entry = Some (Exchange.type exc))
      (testMessages s1).
Proof.
  intros Hrel Hsrc.
  set (s := constructor a excs bs m t).
  assert (Hfound : forall b, b ∈ bs ->
            exists exc, exc ∈ excs /\ Exchange.name exc = Binding.source b /\
              exchanges s !! Binding.source b = Some exc).
  { intros b Hb.
    destruct (indexExchanges_cases excs ∅ (Binding.source b))
      as [H | (Hnot & _)]; [exact H|].
    contradiction (Hnot (Hsrc b Hb)). }
  assert (Hall : Forall (resolves s) (bindings s)).
  { apply Forall_forall. intros b Hb. destruct (Hfound b Hb) as (exc & _ & _ & Hl).
    unfold resolves, getProperty. rewrite Hl. discriminate. }
  eexists. split; [apply (prepTests_resolved env Hrel s Hall)|].
  simpl. unfold compiledPlan. simpl.
  split; [reflexivity|].
  split; [apply length_map|].
  split; [rewrite map_map; reflexivity|].
  split; [rewrite map_map; reflexivity|].
  apply Forall_map. apply Forall_forall. intros b Hb.
  destruct (Hfound b Hb) as (exc & Hin & Hname & Hl).
  simpl. split; [reflexivity|]. split; [reflexivity|].
  exists exc. split; [exact Hin|]. split; [exact Hname|].
  unfold getProperty. change (indexExchanges excs) with (exchanges s).
  rewrite Hl. reflexivity.
Qed.

(** X8 with the exchange and the binding of the scenario. *)
Lemma prepTests_compiles_bindings_witness :
  exists s1,
    prepTests calm (constructor "amqp://localhost" [exchangeX] [bindingK] None
                      (Some 5))
    = (Normal, s1) /\
    readyToTest s1 = true /\
    length (testMessages s1) = length [bindingK] /\
    map TestMessage.exchangeName (testMessages s1)
      = map Binding.source [bindingK] /\
    map TestMessage.key (testMessages s1) = map Binding.routing_key [bindingK] /\
    Forall (fun entry =>
              TestMessage.rabbitAddress entry = "amqp://localhost" /\
              TestMessage.message entry =
                message (constructor "amqp://localhost" [exchangeX] [bindingK]
                           None (Some 5)) /\
              exists exc, exc ∈ [exchangeX] /\
                Exchange.name exc = TestMessage.exchangeName entry /\
                TestMessage.exchangeType entry = Some (Exchange.type exc))
      (testMessages s1).
Proof.
  apply (prepTests_compiles_bindings calm "amqp://localhost" [exchangeX]
           [bindingK] None (Some 5)).
  - repeat split; intros; reflexivity.
  - intros b Hb. apply list_elem_of_singleton in Hb. subst b. simpl. left.
Defined.

(** ** Strategies *)

(** X9.  Round-robin against a reliable broker, on a ready session whose
    plan is not empty and whose counter has not passed the target: the run
    completes, and what it publishes is the plan, in the order of the plan,
    pass after pass, always whole passes, and exactly as many as the
    counter needs to pass the target. *)
Theorem round_robin_whole_passes_in_order (env : Env) (s : Session) :
  reliable env ->
  readyToTest s = true ->
  testMessages s <> [] ->
  totalMessagesSent s <= target s ->
  exists fuel s',
    runTest env fuel "round-robin" s = (Some Normal, s') /\
    publications (events s') =
      publications (events s) ++
      concat (repeat (map publicationOf (testMessages s))
                (Z.to_nat ((target s - totalMessagesSent s)
                           / Z.of_nat (length (testMessages s)) + 1))).
Proof.
  intros Hrel Hready Hplan Hle.
  destruct (runTest_reliable_unfold env Hrel s Hready) as (s1 & Hch & Hq & Hrun).
  pose proof (quietly_publications _ _ Hq) as Hp1.
  destruct Hq as [_ Hto Hta Htm _ _ _ _].
  destruct (runCase_round_robin env Hrel (markStart env s1))
    as (fuel & s2 & Hc & Hgt & Hmax & passes & Hpasses & Hev).
  { exact Hch. }
  { simpl. rewrite Htm. exact Hplan. }
  simpl in Hgt, Hmax, Hpasses, Hev.
  rewrite Hta in Hgt, Hmax. rewrite Hto, Htm in Hmax, Hpasses.
  rewrite Htm, Hp1 in Hev.
  destruct (finish_books env "round-robin" s2) as (_ & _ & Hp3 & _).
  exists fuel, (finish env "round-robin" s2).
  split; [rewrite Hrun, Hc; reflexivity|].
  rewrite Hp3, Hev. do 3 f_equal.
  assert (Hn : 0 < Z.of_nat (length (testMessages s)))
    by (destruct (testMessages s); [congruence | simpl; lia]).
  assert (Hq : Z.of_nat passes - 1 =
               (target s - totalMessagesSent s) / Z.of_nat (length (testMessages s))).
  { apply Z.div_unique with
      (r := target s - totalMessagesSent s
            - Z.of_nat (length (testMessages s)) * (Z.of_nat passes - 1)); nia. }
  lia.
Qed.

(** X9 at the prepared scenario. *)
Lemma round_robin_whole_passes_in_order_witness :
  exists fuel s',
    runTest calm fuel "round-robin" prepared = (Some Normal, s') /\
    publications (events s') =
      publications (events prepared) ++
      concat (repeat (map publicationOf (testMessages prepared))
                (Z.to_nat ((target prepared - totalMessagesSent prepared)
                           / Z.of_nat (length (testMessages prepared)) + 1))).
Proof.
  apply (round_robin_whole_passes_in_order calm prepared).
  - repeat split; intros; reflexivity.
  - reflexivity.
  - vm_compute. discriminate.
  - vm_compute. discriminate.
Defined.

Lemma while_exit_at_once (fuel : nat) (body : Session -> Completion * Session)
    (s : Session) :
  target s < totalMessagesSent s ->
  while fuel belowTarget body s = (Some Normal, s).
Proof.
  intros Hgt. apply Z.leb_gt in Hgt.
  destruct fuel; simpl; rewrite Hgt; reflexivity.
Qed.

(** X10.  A count-bounded run of a connected, ready session whose counter
    is already past the target (a counter left by an aborted run, a target
    lowered since, a negative target) publishes nothing, whatever the fuel
    and the broker, and still completes: it records a snapshot with the
    counter as it found it and sets the counter to 0. *)
Theorem run_with_counter_past_target (env : Env) (fuel : nat) (type : string)
    (s : Session) :
  readyToTest s = true -> connection s = true -> channel s = true ->
  target s < totalMessagesSent s ->
  type = "round-robin" \/ type = "random" \/ type = "single-binding" ->
  exists s' snap,
    runTest env fuel type s = (Some Normal, s') /\
    publications (events s') = publications (events s) /\
    snapShots s' = snapShots s ++ [snap] /\
    SnapShot.totalMessagesSent snap = totalMessagesSent s /\
    totalMessagesSent s' = 0.
Proof.
  intros Hready Hc Hch Hgt Htype.
  assert (Hcase : exists s2,
    runCase env fuel type (markStart env s) = (Some Normal, s2) /\
    events s2 = events s /\ snapShots s2 = snapShots s /\
    totalMessagesSent s2 = totalMessagesSent s).
  { unfold runCase. destruct Htype as [-> | [-> | ->]]; simpl.
    - rewrite while_exit_at_once by exact Hgt. eexists. repeat split.
    - rewrite while_exit_at_once by exact Hgt. eexists. repeat split.
    - rewrite while_exit_at_once by exact Hgt. eexists. repeat split. }
  destruct Hcase as (s2 & Hcase & He & Hsn & Hto).
  destruct (finish_books env type s2) as (Hzero & _ & Hp & snap & Hsnap & Htot & _).
  exists (finish env type s2), snap.
  split.
  { unfold runTest, ensureConnected. rewrite Hready, Hc, Hch. simpl.
    rewrite Hcase. reflexivity. }
  split; [rewrite Hp, He; reflexivity|].
  split; [rewrite Hsnap, Hsn; reflexivity|].
  split; [congruence | exact Hzero].
Qed.

(** X10 on the prepared scenario after [updateTarget(-5)]. *)
Lemma run_with_counter_past_target_witness :
  exists s' snap,
    runTest calm 0 "random" (updateTarget (JsNum (Int (-5))) prepared)
    = (Some Normal, s') /\
    publications (events s')
      = publications (events (updateTarget (JsNum (Int (-5))) prepared)) /\
    snapShots s'
      = snapShots (updateTarget (JsNum (Int (-5))) prepared) ++ [snap] /\
    SnapShot.totalMessagesSent snap
      = totalMessagesSent (updateTarget (JsNum (Int (-5))) prepared) /\
    totalMessagesSent s' = 0.
Proof.
  apply (run_with_counter_past_target calm 0 "random"
           (updateTarget (JsNum (Int (-5))) prepared)).
  - reflexivity.
  - reflexivity.
  - reflexivity.
  - vm_compute. reflexivity.
  - right. left. reflexivity.
Defined.

(** X11.  With an empty plan (no binding) the random and the single-binding
    strategies do not loop as round-robin does: on a connected, ready
    session whose counter has not passed the target, the first turn reads
    an entry that is not there and the run throws a [TypeError], having
    published nothing and recorded no snapshot. *)
Theorem random_on_empty_plan_throws (env : Env) (fuel : nat) (type : string)
    (s : Session) :
  readyToTest s = true -> connection s = true -> channel s = true ->
  testMessages s = [] ->
  totalMessagesSent s <= target s ->
  type = "random" \/ type = "single-binding" ->
  fst (runTest env (S fuel) type s) = Some (Throw TypeError) /\
  events (snd (runTest env (S fuel) type s)) = events s /\
  snapShots (snd (runTest env (S fuel) type s)) = snapShots s /\
  totalMessagesSent (snd (runTest env (S fuel) type s)) = totalMessagesSent s.
Proof.
  intros Hready Hc Hch Hnil Hle Htype. apply Z.leb_le in Hle.
  unfold runTest, ensureConnected. rewrite Hready, Hc, Hch. simpl.
  unfold runCase.
  destruct Htype as [-> | ->]; simpl; rewrite Hle;
    unfold publishRandomNumber; simpl; rewrite Hnil; simpl;
    repeat split.
Qed.

(** X11 on a prepared session that has no binding. *)
Lemma random_on_empty_plan_throws_witness :
  fst (runTest calm 1 "random" unbound) = Some (Throw TypeError) /\
  events (snd (runTest calm 1 "random" unbound)) = events unbound /\
  snapShots (snd (runTest calm 1 "random" unbound)) = snapShots unbound /\
  totalMessagesSent (snd (runTest calm 1 "random" unbound))
    = totalMessagesSent unbound.
Proof.
  apply (random_on_empty_plan_throws calm 0 "random" unbound).
  - reflexivity.
  - reflexivity.
  - reflexivity.
  - reflexivity.
  - vm_compute. discriminate.
  - left. reflexivity.
Defined.

(** X12.  A strategy name that is none of the four is not an error for the
    caller: on a connected, ready session the run publishes nothing, and
    still records a snapshot, under that name and with the counter as it
    was, closes, and sets the counter to 0. *)
Theorem unknown_strategy_still_snapshots (env : Env) (fuel : nat)
    (type : string) (s : Session) :
  readyToTest s = true -> connection s = true -> channel s = true ->
  type <> "round-robin" -> type <> "random" ->
  type <> "extended-duration" -> type <> "single-binding" ->
  exists s' snap,
    runTest env fuel type s = (Some Normal, s') /\
    publications (events s') = publications (events s) /\
    snapShots s' = snapShots s ++ [snap] /\
    SnapShot.testType snap = type /\
    SnapShot.totalMessagesSent snap = totalMessagesSent s /\
    totalMessagesSent s' = 0.
Proof.
  intros Hready Hc Hch H1 H2 H3 H4.
  apply String.eqb_neq in H1, H2, H3, H4.
  destruct (finish_books env type (markStart env s))
    as (Hzero & _ & Hp & snap & Hsnap & Htot & _ & Hty & _).
  exists (finish env type (markStart env s)), snap.
  split.
  { unfold runTest, ensureConnected. rewrite Hready, Hc, Hch. simpl.
    unfold runCase. rewrite H1, H2, H3, H4. reflexivity. }
  repeat split; assumption.
Qed.

(** X12 on the prepared scenario with a misspelt strategy. *)
Lemma unknown_strategy_still_snapshots_witness :
  exists s' snap,
    runTest calm 0 "round robin" prepared = (Some Normal, s') /\
    publications (events s') = publications (events prepared) /\
    snapShots s' = snapShots prepared ++ [snap] /\
    SnapShot.testType snap = "round robin" /\
    SnapShot.totalMessagesSent snap = totalMessagesSent prepared /\
    totalMessagesSent s' = 0.
Proof.
  apply (unknown_strategy_still_snapshots calm 0 "round robin" prepared);
    try reflexivity; discriminate.
Defined.

(** ** The duration-bounded strategy *)

Lemma forEach_publish_clock (env : Env) (l : list TestMessage.t) (s : Session) :
  clockReads (snd (forEach (publishEntry env) l s)) = clockReads s /\
  testDuration (snd (forEach (publishEntry env) l s)) = testDuration s.
Proof.
  revert s. induction l as [|msg l IH]; intros s; simpl; [auto|].
  assert (H : clockReads (snd (publishEntry env msg s)) = clockReads s /\
              testDuration (snd (publishEntry env msg s)) = testDuration s).
  { unfold publishEntry, publishMessage. destruct (channel s); [|auto].
    destruct (channel_publish env (events s) _); auto. }
  destruct (publishEntry env msg s) as [[|e] s1]; simpl in *; [|exact H].
  destruct (IH s1) as [H1 H2]. destruct H as [H3 H4]. split; congruence.
Qed.

Section Duration.

Variable env : Env.
Hypothesis Hrel : reliable env.

(** The loop makes one pass per reading of the clock that is less than an
    hour after the start, and leaves at the first reading that is not. *)
Lemma extended_duration_loop (passes : nat) :
  forall (s : Session) (st : Z),
    channel s = true -> start s = Some st ->
    testDuration s = Some 3600000 ->
    (forall j, (j < passes)%nat ->
       Date_now env (clockReads s + j) - st < 3600000) ->
    3600000 <= Date_now env (clockReads s + passes) - st ->
    exists s',
      while passes (withinDuration env)
        (fun s => forEach (publishEntry env) (testMessages s) s) s
      = (Some Normal, s') /\
      totalMessagesSent s' =
        totalMessagesSent s
        + Z.of_nat passes * Z.of_nat (length (testMessages s)) /\
      publications (events s') =
        publications (events s) ++
        concat (repeat (map publicationOf (testMessages s)) passes).
Proof.
  induction passes as [|k IH]; intros s st Hch Hst Hdur Hin Hout; simpl.
  - rewrite Hst, Hdur. rewrite Nat.add_0_r in Hout.
    destruct (Z.ltb_spec (Date_now env (clockReads s) - st) 3600000); [lia|].
    eexists. split; [reflexivity|]. simpl. rewrite app_nil_r. split; [lia | reflexivity].
  - rewrite Hst, Hdur.
    pose proof (Hin 0%nat ltac:(lia)) as H0. rewrite Nat.add_0_r in H0.
    destruct (Z.ltb_spec (Date_now env (clockReads s) - st) 3600000); [|lia].
    destruct (forEach_publish_reliable env Hrel (testMessages s)
                (set_clockReads (S (clockReads s)) s) Hch)
      as (s1 & Hrun & Hch1 & Htm1 & _ & Hto1 & Hev1).
    pose proof (forEach_publish_stretch env (testMessages s)
                  (set_clockReads (S (clockReads s)) s)) as Hst1.
    pose proof (forEach_publish_clock env (testMessages s)
                  (set_clockReads (S (clockReads s)) s)) as [Hcl1 Hdur1].
    rewrite Hrun in Hst1, Hcl1, Hdur1. simpl in Hst1, Hcl1, Hdur1.
    destruct Hst1 as [[_ _ _ _ _ _ _ _ _ _ Hstart1] _]. simpl in Hstart1.
    rewrite Hrun.
    destruct (IH s1 st) as (s' & Hw & Hto & Hev).
    + exact Hch1.
    + congruence.
    + congruence.
    + intros j Hj. rewrite Hcl1.
      replace (S (clockReads s) + j)%nat with (clockReads s + S j)%nat by lia.
      apply Hin. lia.
    + rewrite Hcl1.
      replace (S (clockReads s) + k)%nat with (clockReads s + S k)%nat by lia.
      exact Hout.
    + exists s'. split; [exact Hw|]. simpl in Htm1, Hto1, Hev1.
      rewrite Htm1 in Hto, Hev. rewrite Hto, Hto1, Hev, Hev1, <- app_assoc.
      split; [lia | reflexivity].
Qed.

End Duration.

(** X13.  The extended-duration strategy is bounded by the clock alone:
    against a reliable broker, if the first [passes] readings of the clock
    after the start are less than an hour (3600000 ms) past the reading
    taken at the start and the next one is not, the run makes exactly
    [passes] passes over the plan, in plan order, whatever the target and
    the counter, and records the counter it reached. *)
Theorem extended_duration_follows_clock (env : Env) (s : Session)
    (passes : nat) :
  reliable env ->
  readyToTest s = true ->
  (forall j, (j < passes)%nat ->
     Date_now env (S (clockReads s) + j) - Date_now env (clockReads s)
     < 3600000) ->
  3600000 <=
    Date_now env (S (clockReads s) + passes) - Date_now env (clockReads s) ->
  exists s' snap,
    runTest env passes "extended-duration" s = (Some Normal, s') /\
    publications (events s') =
      publications (events s) ++
      concat (repeat (map publicationOf (testMessages s)) passes) /\
    snapShots s' = snapShots s ++ [snap] /\
    SnapShot.totalMessagesSent snap =
      totalMessagesSent s + Z.of_nat passes * Z.of_nat (length (testMessages s)).
Proof.
  intros Hrel Hready Hin Hout.
  destruct (runTest_reliable_unfold env Hrel s Hready) as (s1 & Hch & Hq & Hrun).
  pose proof (quietly_publications _ _ Hq) as Hp1.
  destruct Hq as [Hsn Hto _ Htm _ Hcl _ _].
  destruct (extended_duration_loop env Hrel passes
              (set_testDuration (Some 3600000) (markStart env s1))
              (Date_now env (clockReads s1)))
    as (s2 & Hw & Htot & Hev); try reflexivity.
  { exact Hch. }
  { simpl. rewrite Hcl. exact Hin. }
  { simpl. rewrite Hcl. exact Hout. }
  simpl in Htot, Hev. rewrite Hto, Htm in Htot. rewrite Htm, Hp1 in Hev.
  assert (Hcase : runCase env passes "extended-duration" (markStart env s1)
                  = (Some Normal, set_testDuration None s2)).
  { unfold runCase. simpl. rewrite Hw. reflexivity. }
  destruct (finish_books env "extended-duration" (set_testDuration None s2))
    as (_ & _ & Hp3 & snap & Hsnap & Hst & _).
  pose proof (runCase_stretch env passes "extended-duration" (markStart env s1))
    as Hs.
  rewrite Hcase in Hs. destruct Hs as [[_ _ _ _ _ Hsn2 _ _ _ _ _] _].
  simpl in Hsn2, Hst.
  exists (finish env "extended-duration" (set_testDuration None s2)), snap.
  split; [rewrite Hrun, Hcase; reflexivity|].
  split; [rewrite Hp3; exact Hev|].
  split; [rewrite Hsnap; simpl; congruence | congruence].
Qed.

(** X13 at the prepared scenario with the clock of [calm], one second per
    reading: 3599 passes. *)
Lemma extended_duration_follows_clock_witness :
  exists s' snap,
    runTest calm 3599 "extended-duration" prepared = (Some Normal, s') /\
    publications (events s') =
      publications (events prepared) ++
      concat (repeat (map publicationOf (testMessages prepared)) 3599) /\
    snapShots s' = snapShots prepared ++ [snap] /\
    SnapShot.totalMessagesSent snap =
      totalMessagesSent prepared
      + Z.of_nat 3599 * Z.of_nat (length (testMessages prepared)).
Proof.
  apply (extended_duration_follows_clock calm prepared 3599).
  - repeat split; intros; reflexivity.
  - reflexivity.
  - intros j Hj. change (clockReads prepared) with 0%nat.
    unfold calm, Date_now. lia.
  - change (clockReads prepared) with 0%nat. unfold calm, Date_now. lia.
Defined.

(** ** Snapshots *)

(** X14.  The snapshot of a completed run describes the session the run
    was started on: its address, exchanges, bindings, plan and target, the
    strategy asked for, the reading of the clock taken when the run
    started, and the success rate of the recorded count against that
    target. *)
Theorem snapshot_describes_the_run (env : Env) (fuel : nat) (type : string)
    (s : Session) :
  readyToTest s = true ->
  fst (runTest env fuel type s) = Some Normal ->
  exists snap,
    snapShots (snd (runTest env fuel type s)) = snapShots s ++ [snap] /\
    SnapShot.rabbitAddress snap = rabbitAddress s /\
    SnapShot.exchanges snap = exchanges s /\
    SnapShot.bindings snap = bindings s /\
    SnapShot.testMessages snap = testMessages s /\
    SnapShot.target snap = target s /\
    SnapShot.testType snap = type /\
    SnapShot.start snap = Some (Date_now env (clockReads s)) /\
    SnapShot.messageSuccessRate snap =
      messageSuccessRate (SnapShot.totalMessagesSent snap) (target s).
Proof.
  intros Hready. unfold runTest. rewrite Hready. simpl.
  destruct (ensureConnected_trace env s) as ((Ha & He & Hb & _ & Htm & _) & _).
  pose proof (ensureConnected_quietly env s) as [[Hsn _ Hta _ _ Hcl _ _] _].
  destruct (ensureConnected env s) as [[|e] s1]; simpl in *;
    [|intros H; discriminate H].
  pose proof (runCase_stretch env fuel type (markStart env s1)) as Hst.
  destruct (runCase env fuel type (markStart env s1)) as [[[|e]|] s2]; simpl in *;
    intros H; try discriminate H.
  destruct Hst as [[Ha2 He2 Hb2 _ Htm2 Hsn2 _ Hta2 _ _ Hst2] _].
  simpl in Ha2, He2, Hb2, Htm2, Hsn2, Hta2, Hst2.
  pose proof (closeConnection_quietly env (takeSnapShot env (start s2) type s2))
    as [Hsn3 _ _ _ _ _ _ _].
  unfold finish. simpl. rewrite Hsn3. simpl.
  eexists. split; [rewrite Hsn2, Hsn; reflexivity|]. simpl.
  repeat split; congruence.
Qed.

(** X14 at the prepared scenario. *)
Lemma snapshot_describes_the_run_witness :
  exists snap,
    snapShots (snd (runTest calm 10 "random" prepared))
      = snapShots prepared ++ [snap] /\
    SnapShot.rabbitAddress snap = rabbitAddress prepared /\
    SnapShot.exchanges snap = exchanges prepared /\
    SnapShot.bindings snap = bindings prepared /\
    SnapShot.testMessages snap = testMessages prepared /\
    SnapShot.target snap = target prepared /\
    SnapShot.testType snap = "random" /\
    SnapShot.start snap = Some (Date_now calm (clockReads prepared)) /\
    SnapShot.messageSuccessRate snap =
      messageSuccessRate (SnapShot.totalMessagesSent snap) (target prepared).
Proof.
  apply (snapshot_describes_the_run calm 10 "random" prepared).
  - reflexivity.
  - vm_compute. reflexivity.
Defined.

(** X15.  The history grows by completed runs only.  [runTest] appends
    exactly one snapshot when the session is ready and the run returns
    normally; when the session is not ready, when the run throws, whatever
    the error, and while it is still in its loop, the history is the one
    before the call. *)
Theorem history_grows_by_completed_runs (env : Env) (fuel : nat)
    (type : string) (s : Session) :
  (readyToTest s = true /\ fst (runTest env fuel type s) = Some Normal ->
   exists snap,
     snapShots (snd (runTest env fuel type s)) = snapShots s ++ [snap]) /\
  (readyToTest s = false \/ fst (runTest env fuel type s) <> Some Normal ->
   snapShots (snd (runTest env fuel type s)) = snapShots s).
Proof.
  destruct (readyToTest s) eqn:Hready.
  - destruct (runTest_ledger env fuel type s Hready) as (new & _ & Hbooks).
    split.
    + intros [_ Hn]. rewrite Hn in Hbooks.
      destruct Hbooks as (_ & _ & snap & Hsn & _). exists snap. exact Hsn.
    + intros [H | Hn]; [discriminate H|].
      destruct (fst (runTest env fuel type s)) as [[|e]|].
      * contradiction Hn. reflexivity.
      * destruct e; tauto.
      * tauto.
  - split; [intros [H _]; discriminate H|].
    intros _. unfold runTest. rewrite Hready. reflexivity.
Qed.

(** ** Recompiling after an update *)

(** X16.  [updateRabbitStressTest] followed by [prepTests] compiles from
    scratch: with a reliable broker and every source of the bindings then
    in force resolving, the plan is exactly one entry per binding of the
    updated session, whatever plan the session had before, and the session
    is ready again with its counter at 0. *)
Theorem update_then_prepTests_recompiles (env : Env) (a : option string)
    (excs : option (list Exchange.t)) (bs : option (list Binding.t))
    (m : option Message) (s : Session) :
  reliable env ->
  Forall (resolves (updateRabbitStressTest a excs bs m s))
    (bindings (updateRabbitStressTest a excs bs m s)) ->
  exists s1,
    prepTests env (updateRabbitStressTest a excs bs m s) = (Normal, s1) /\
    testMessages s1 = compiledPlan (updateRabbitStressTest a excs bs m s) /\
    length (testMessages s1)
      = length (bindings (updateRabbitStressTest a excs bs m s)) /\
    readyToTest s1 = true /\
    totalMessagesSent s1 = 0 /\
    snapShots s1 = snapShots s.
Proof.
  intros Hrel Hall.
  assert (Hupd : testMessages (updateRabbitStressTest a excs bs m s) = [] /\
                 totalMessagesSent (updateRabbitStressTest a excs bs m s) = 0 /\
                 snapShots (updateRabbitStressTest a excs bs m s) = snapShots s).
  { unfold updateRabbitStressTest.
    destruct a as [a|], excs, bs, m; simpl;
      try destruct (negb (String.eqb a "")); repeat split. }
  destruct Hupd as (Hnil & Hzero & Hsn).
  eexists. split; [apply (prepTests_resolved env Hrel _ Hall)|].
  simpl. rewrite Hnil, Hzero, Hsn. simpl.
  repeat split. unfold compiledPlan. apply length_map.
Qed.

(** X16 on the prepared scenario, updated with nothing new. *)
Lemma update_then_prepTests_recompiles_witness :
  exists s1,
    prepTests calm (updateRabbitStressTest None None None None prepared)
    = (Normal, s1) /\
    testMessages s1
      = compiledPlan (updateRabbitStressTest None None None None prepared) /\
    length (testMessages s1)
      = length (bindings (updateRabbitStressTest None None None None prepared)) /\
    readyToTest s1 = true /\
    totalMessagesSent s1 = 0 /\
    snapShots s1 = snapShots prepared.
Proof.
  apply (update_then_prepTests_recompiles calm None None None None prepared).
  - repeat split; intros; reflexivity.
  - repeat constructor. vm_compute. discriminate.
Defined.

(** ** The random strategy, draw by draw *)

Section RandomDraws.

Variable env : Env.
Hypothesis Hrel : reliable env.

Lemma random_loop_draws (s : Session) :
  channel s = true -> testMessages s <> [] ->
  exists s' (entries : list TestMessage.t),
    while (Z.to_nat (target s - totalMessagesSent s + 1)) belowTarget
      (fun s => publishRandomNumber env (drawRandomNumber env s)) s
    = (Some Normal, s') /\
    length entries = Z.to_nat (target s + 1 - totalMessagesSent s) /\
    randomDraws s' = (randomDraws s + length entries)%nat /\
    publications (events s') =
      publications (events s) ++ map publicationOf entries /\
    forall i, (i < length entries)%nat ->
      entries !! i =
        testMessages s
          !! randomIndex (Math_random env (randomDraws s + i))
               (length (testMessages s)).
Proof.
  intros Hch Hne.
  destruct (while_belowTarget_exit
    (fun s => publishRandomNumber env (drawRandomNumber env s))
    (fun x => channel x = true /\ testMessages x = testMessages s /\
              exists entries : list TestMessage.t,
                totalMessagesSent x =
                  totalMessagesSent s + Z.of_nat (length entries) /\
                randomDraws x = (randomDraws s + length entries)%nat /\
                publications (events x) =
                  publications (events s) ++ map publicationOf entries /\
                forall i, (i < length entries)%nat ->
                  entries !! i =
                    testMessages s
                      !! randomIndex (Math_random env (randomDraws s + i))
                           (length (testMessages s))) 1)
    with (fuel := Z.to_nat (target s - totalMessagesSent s + 1)) (s := s)
    as (s' & Hw & (_ & _ & entries & H1 & H2 & H3 & H4) & _ & Hgt & Hmax).
  - lia.
  - intros x (Hx1 & Hx2 & entries & E1 & E2 & E3 & E4) _.
    unfold publishRandomNumber. simpl.
    destruct (lookup_lt_is_Some_2 (testMessages x)
      (randomIndex (Math_random env (randomDraws x)) (length (testMessages x))))
      as [msg Hmsg].
    { apply randomIndex_lt. rewrite Hx2.
      destruct (testMessages s); [congruence | simpl; lia]. }
    rewrite Hmsg. rewrite (publishEntry_reliable env Hrel) by exact Hx1.
    eexists. split; [reflexivity|]. simpl.
    split; [|split; [reflexivity | reflexivity]].
    split; [exact Hx1|]. split; [exact Hx2|].
    exists (entries ++ [msg]). rewrite length_app. simpl.
    split; [lia|]. split; [lia|]. split.
    + rewrite publications_app, E3, map_app, <- app_assoc. reflexivity.
    + intros i Hi.
      destruct (decide (i < length entries)%nat) as [Hlt | Hge].
      * rewrite lookup_app_l by exact Hlt. apply E4. exact Hlt.
      * assert (i = length entries) by lia. subst i.
        rewrite lookup_app_r by lia. rewrite Nat.sub_diag. simpl.
        rewrite <- Hx2, <- E2. symmetry. exact Hmsg.
  - split; [exact Hch|]. split; [reflexivity|].
    exists []. simpl. rewrite app_nil_r.
    repeat split; try lia.
  - lia.
  - exists s', entries. repeat split; try assumption. lia.
Qed.

End RandomDraws.

(** X17.  The random strategy, against a reliable broker, on a ready
    session with a plan that is not empty: the run draws once before each
    publish and publishes the entry that draw selects, so its publications
    are, in order, the entries at the indexes drawn; there are as many
    draws as publications, and as many publications as the counter needs
    to pass the target. *)
Theorem random_publishes_what_it_draws (env : Env) (s : Session) :
  reliable env ->
  readyToTest s = true ->
  testMessages s <> [] ->
  exists fuel s' (entries : list TestMessage.t),
    runTest env fuel "random" s = (Some Normal, s') /\
    publications (events s') =
      publications (events s) ++ map publicationOf entries /\
    length entries = Z.to_nat (target s + 1 - totalMessagesSent s) /\
    randomDraws s' = (randomDraws s + length entries)%nat /\
    forall i, (i < length entries)%nat ->
      entries !! i =
        testMessages s
          !! randomIndex (Math_random env (randomDraws s + i))
               (length (testMessages s)).
Proof.
  intros Hrel Hready Hplan.
  destruct (runTest_reliable_unfold env Hrel s Hready) as (s1 & Hch & Hq & Hrun).
  pose proof (quietly_publications _ _ Hq) as Hp1.
  destruct Hq as [_ Hto Hta Htm _ _ Hrd _].
  destruct (random_loop_draws env Hrel (markStart env s1))
    as (s2 & entries & Hw & Hlen & Hdr & Hev & Hidx).
  { exact Hch. }
  { simpl. rewrite Htm. exact Hplan. }
  simpl in Hlen, Hdr, Hev, Hidx. rewrite Hto, Hta in Hlen.
  rewrite Hrd in Hdr, Hidx. rewrite Htm in Hidx.
  rewrite Hp1 in Hev.
  assert (Hcase : runCase env (Z.to_nat (target (markStart env s1)
                     - totalMessagesSent (markStart env s1) + 1)) "random"
                    (markStart env s1)
                  = (Some Normal, set_randomNumber None s2)).
  { unfold runCase. simpl. simpl in Hw. rewrite Hw. reflexivity. }
  destruct (finish_books env "random" (set_randomNumber None s2))
    as (_ & Hrd3 & Hp3 & _).
  eexists _, (finish env "random" (set_randomNumber None s2)), entries.
  split; [rewrite Hrun, Hcase; reflexivity|].
  split; [rewrite Hp3; exact Hev|].
  split; [exact Hlen|].
  split; [rewrite Hrd3; exact Hdr | exact Hidx].
Qed.

(** X17 at the prepared scenario. *)
Lemma random_publishes_what_it_draws_witness :
  exists fuel s' (entries : list TestMessage.t),
    runTest calm fuel "random" prepared = (Some Normal, s') /\
    publications (events s') =
      publications (events prepared) ++ map publicationOf entries /\
    length entries
      = Z.to_nat (target prepared + 1 - totalMessagesSent prepared) /\
    randomDraws s' = (randomDraws prepared + length entries)%nat /\
    forall i, (i < length entries)%nat ->
      entries !! i =
        testMessages prepared
          !! randomIndex (Math_random calm (randomDraws prepared + i))
               (length (testMessages prepared)).
Proof.
  apply (random_publishes_what_it_draws calm prepared).
  - repeat split; intros; reflexivity.
  - reflexivity.
  - vm_compute. discriminate.
Defined.

(** ** What every session keeps *)

Section Invariants.

Variable env : Env.

Lemma connectToRabbitMQ_flags (s : Session) :
  readyToTest (snd (connectToRabbitMQ env s)) = readyToTest s /\
  (connection s = true -> connection (snd (connectToRabbitMQ env s)) = true) /\
  (channel s = true -> channel (snd (connectToRabbitMQ env s)) = true) /\
  (fst (connectToRabbitMQ env s) = Normal ->
   connection (snd (connectToRabbitMQ env s)) = true /\
   channel (snd (connectToRabbitMQ env s)) = true).
Proof.
  unfold connectToRabbitMQ.
  destruct (amqp_connect env (events s) (rabbitAddress s)); simpl;
    [destruct (createChannel env _); simpl|];
    repeat split; auto; discriminate.
Qed.

Lemma forEach_push_flags (l : list Binding.t) (s : Session) :
  target (snd (forEach pushTestMessage l s)) = target s /\
  connection (snd (forEach pushTestMessage l s)) = connection s /\
  channel (snd (forEach pushTestMessage l s)) = channel s.
Proof.
  revert s. induction l as [|b l IH]; intros s; simpl; [auto|].
  assert (H : target (snd (pushTestMessage b s)) = target s /\
              connection (snd (pushTestMessage b s)) = connection s /\
              channel (snd (pushTestMessage b s)) = channel s).
  { unfold pushTestMessage.
    destruct (getProperty (exchanges s) (Binding.source b)); auto. }
  destruct (pushTestMessage b s) as [[|e] s1]; simpl in *; [|exact H].
  destruct (IH s1) as (H1 & H2 & H3). destruct H as (H4 & H5 & H6).
  repeat split; congruence.
Qed.

Lemma wellFormed_quietly (s s' : Session) :
  quietly s s' ->
  (readyToTest s' = true -> connection s' = true /\ channel s' = true) ->
  wellFormed s -> wellFormed s'.
Proof.
  intros Hq Hready [Wt Wc Wr Wh].
  pose proof (quietly_publications _ _ Hq) as Hp.
  destruct Hq as [Hsn Hto Hta _ _ _ _ _].
  constructor; [congruence | rewrite Hto, Hp; exact Wc | exact Hready |].
  rewrite Hsn. exact Wh.
Qed.

Lemma prepTests_wellFormed (s : Session) :
  wellFormed s -> wellFormed (snd (prepTests env s)).
Proof.
  intros W. unfold prepTests.
  pose proof (connectToRabbitMQ_quietly env s) as [Hq _].
  destruct (connectToRabbitMQ_flags s) as (Hrd & Hc & Hch & Hok).
  assert (W1 : wellFormed (snd (connectToRabbitMQ env s))).
  { apply (wellFormed_quietly s); [exact Hq | | exact W].
    intros H. rewrite Hrd in H. destruct (wf_ready _ W H). auto. }
  destruct (connectToRabbitMQ env s) as [[|e] s1]; simpl in *; [|exact W1].
  destruct (Hok eq_refl) as [Hc1 Hch1].
  pose proof (forEach_push_frame (bindings s1) s1) as Hf.
  destruct (forEach_push_flags (bindings s1) s1) as (Ft & Fc & Fch).
  destruct (forEach pushTestMessage (bindings s1) s1) as [[|e] s2]; simpl in *;
    destruct Hf as (F1 & F2 & F3 & F4 & _);
    destruct W1 as [Wt Wc Wr Wh];
    (constructor; simpl;
     [congruence | rewrite F3, F4; exact Wc | intros _; split; congruence |
      rewrite F1; exact Wh]).
Qed.

Lemma runTest_wellFormed (fuel : nat) (type : string) (s : Session) :
  wellFormed s -> wellFormed (snd (runTest env fuel type s)).
Proof.
  intros W. destruct (readyToTest s) eqn:Hready.
  2: { unfold runTest. rewrite Hready. exact W. }
  destruct (wf_ready _ W Hready) as [Hc Hch].
  destruct (runTest_ledger env fuel type s Hready) as (new & He & Hbooks).
  assert (Hkeep : target (snd (runTest env fuel type s)) = target s /\
                  connection (snd (runTest env fuel type s)) = true /\
                  channel (snd (runTest env fuel type s)) = true).
  { unfold runTest, ensureConnected. rewrite Hready, Hc, Hch. simpl.
    pose proof (runCase_stretch env fuel type (markStart env s)) as Hst.
    destruct (runCase env fuel type (markStart env s)) as [o s2].
    destruct Hst as [[_ _ _ _ _ _ _ Hta Hc2 Hch2 _] _]. simpl in Hta, Hc2, Hch2.
    assert (Hfin : target (finish env type s2) = target s /\
                   connection (finish env type s2) = true /\
                   channel (finish env type s2) = true).
    { unfold finish. simpl.
      destruct (closeConnection_trace env (takeSnapShot env (start s2) type s2))
        as (H1 & H2 & _).
      pose proof (closeConnection_quietly env
                    (takeSnapShot env (start s2) type s2)) as [_ _ H3 _ _ _ _ _].
      rewrite H1, H2, H3. simpl. repeat split; congruence. }
    destruct o as [[|e]|]; simpl; try exact Hfin; repeat split; congruence. }
  destruct Hkeep as (Hta & Hc' & Hch').
  destruct W as [Wt Wc Wr Wh].
  assert (Hpubs : publications (events (snd (runTest env fuel type s))) =
                  publications (events s) ++ publications new)
    by (rewrite He; apply publications_app).
  constructor.
  - congruence.
  - rewrite Hpubs, length_app.
    destruct (fst (runTest env fuel type s)) as [[|e]|].
    + destruct Hbooks as (_ & Hzero & _). rewrite Hzero. lia.
    + destruct e; destruct Hbooks as (_ & _ & Hto); rewrite Hto; lia.
    + destruct Hbooks as (_ & _ & Hto). rewrite Hto. lia.
  - intros _. auto.
  - destruct (fst (runTest env fuel type s)) as [[|e]|].
    + destruct Hbooks as (_ & _ & snap & Hsn & Htot & Htar & _).
      rewrite Hsn. apply Forall_app. split; [exact Wh|].
      constructor; [|constructor]. split; [congruence | lia].
    + destruct e; destruct Hbooks as (_ & Hsn & _); rewrite Hsn; exact Wh.
    + destruct Hbooks as (_ & Hsn & _). rewrite Hsn. exact Wh.
Qed.

Lemma perform_wellFormed (c : Call) (s : Session) :
  wellFormed s -> wellFormed (perform env c s).
Proof.
  intros W.
  destruct c as [ | n k m | | | fuel type | sd type | a excs bs m | v ]; simpl.
  - destruct (connectToRabbitMQ_flags s) as (Hrd & Hc & Hch & _).
    apply (wellFormed_quietly s);
      [apply connectToRabbitMQ_quietly | | exact W].
    intros H. rewrite Hrd in H. destruct (wf_ready _ W H). auto.
  - unfold publishMessage.
    destruct (channel s) eqn:Hch; [|exact W].
    destruct (channel_publish env (events s) _); simpl;
      destruct W as [Wt Wc Wr Wh];
      (constructor; simpl;
       [exact Wt
       | rewrite publications_app, length_app; simpl; lia
       | exact Wr | exact Wh]).
  - destruct (closeConnection_trace env s) as (Hc & Hch & Hrd & _).
    apply (wellFormed_quietly s); [apply closeConnection_quietly | | exact W].
    intros H. rewrite Hrd in H. rewrite Hc, Hch. exact (wf_ready _ W H).
  - apply prepTests_wellFormed. exact W.
  - apply runTest_wellFormed. exact W.
  - destruct W as [Wt Wc Wr Wh]. constructor; simpl; try assumption.
    apply Forall_app. split; [exact Wh|].
    constructor; [|constructor]. simpl. split; [exact Wt | lia].
  - destruct W as [Wt Wc Wr Wh]. unfold updateRabbitStressTest.
    destruct a as [a|], excs, bs, m; simpl;
      try destruct (negb (String.eqb a ""));
      (constructor; simpl; [exact Wt | lia | discriminate | exact Wh]).
  - destruct W as [Wt Wc Wr Wh]. unfold updateTarget.
    destruct v as [| |b|[|z]|str|o]; simpl;
      try (constructor; assumption);
      try (destruct b; constructor; assumption);
      try (destruct (negb (String.eqb str "")); constructor; assumption).
    destruct (z =? 0) eqn:Hz; simpl; [constructor; assumption|].
    apply Z.eqb_neq in Hz. constructor; simpl; assumption.
Qed.

Lemma constructor_wellFormed (a : string) (excs : list Exchange.t)
    (bs : list Binding.t) (m : option Message) (t : option Z) :
  wellFormed (constructor a excs bs m t).
Proof.
  constructor; simpl; try lia; try discriminate; [|constructor].
  destruct t as [t|]; [|discriminate].
  destruct (t =? 0) eqn:Ht; simpl; [discriminate|].
  apply Z.eqb_neq in Ht. exact Ht.
Qed.

Lemma performAll_wellFormed (calls : list Call) (s : Session) :
  wellFormed s -> wellFormed (performAll env calls s).
Proof.
  revert s. induction calls as [|c calls IH]; intros s W; simpl; [exact W|].
  apply IH. apply perform_wellFormed. exact W.
Qed.

Lemma perform_grows (c : Call) (s : Session) :
  snapShots s `prefix_of` snapShots (perform env c s) /\
  events s `prefix_of` events (perform env c s).
Proof.
  destruct c as [ | n k m | | | fuel type | sd type | a excs bs m | v ]; simpl.
  - destruct (connectToRabbitMQ_quietly env s) as [[Hsn _ _ _ _ _ _ (k & E & _)] _].
    rewrite Hsn, E. split; [reflexivity | apply prefix_app_r; reflexivity].
  - unfold publishMessage. destruct (channel s); [|split; reflexivity].
    destruct (channel_publish env (events s) _); simpl;
      (split; [reflexivity | apply prefix_app_r; reflexivity]).
  - destruct (closeConnection_quietly env s) as [Hsn _ _ _ _ _ _ (k & E & _)].
    rewrite Hsn, E. split; [reflexivity | apply prefix_app_r; reflexivity].
  - unfold prepTests.
    destruct (connectToRabbitMQ_quietly env s) as [[Hsn _ _ _ _ _ _ (k & E & _)] _].
    destruct (connectToRabbitMQ env s) as [[|e] s1]; simpl in *.
    + pose proof (forEach_push_frame (bindings s1) s1) as Hf.
      destruct (forEach pushTestMessage (bindings s1) s1) as [[|e] s2];
        simpl in *; destruct Hf as (F1 & _ & _ & F4 & _);
        rewrite F1, F4, Hsn, E;
        (split; [reflexivity | apply prefix_app_r; reflexivity]).
    + rewrite Hsn, E. split; [reflexivity | apply prefix_app_r; reflexivity].
  - destruct (readyToTest s) eqn:Hready.
    + destruct (runTest_ledger env fuel type s Hready) as (new & He & Hbooks).
      split; [|rewrite He; apply prefix_app_r; reflexivity].
      destruct (fst (runTest env fuel type s)) as [[|e]|].
      * destruct Hbooks as (_ & _ & snap & Hsn & _). rewrite Hsn.
        apply prefix_app_r. reflexivity.
      * destruct e; destruct Hbooks as (_ & Hsn & _); rewrite Hsn; reflexivity.
      * destruct Hbooks as (_ & Hsn & _). rewrite Hsn. reflexivity.
    + unfold runTest. rewrite Hready. split; reflexivity.
  - split; [apply prefix_app_r; reflexivity | reflexivity].
  - unfold updateRabbitStressTest.
    destruct a as [a|], excs, bs, m; simpl;
      try destruct (negb (String.eqb a "")); split; reflexivity.
  - unfold updateTarget.
    destruct (truthy v && String.eqb (typeof v) "number");
      [|split; reflexivity].
    destruct v as [| |b|[|z]|str|o]; split; reflexivity.
Qed.

End Invariants.

(** X18.  Whatever methods are called on a session after its
    construction, in whatever order, with whatever arguments and whatever
    the broker does: the target is never 0, so no success rate divides by
    zero; the counter is never negative and never more than the number of
    publications the broker has accepted; a session that is ready holds a
    connection and a channel; and every snapshot in the history has a
    target other than 0 and a count that is not negative. *)
Theorem session_invariants (env : Env) (a : string) (excs : list Exchange.t)
    (bs : list Binding.t) (m : option Message) (t : option Z)
    (calls : list Call) :
  let s := performAll env calls (constructor a excs bs m t) in
  target s <> 0 /\
  0 <= totalMessagesSent s <= Z.of_nat (length (publications (events s))) /\
  (readyToTest s = true -> connection s = true /\ channel s = true) /\
  Forall (fun snap => SnapShot.target snap <> 0 /\
                      0 <= SnapShot.totalMessagesSent snap)
    (snapShots s).
Proof.
  destruct (performAll_wellFormed env calls _
              (constructor_wellFormed a excs bs m t)) as [Wt Wc Wr Wh].
  simpl. auto.
Qed.

(** X19.  No method call removes a snapshot or changes what a snapshot
    recorded of its run (address, strategy, count, target, dates, rate),
    and none removes a call from the broker's log: after any sequence of
    calls on any session, the records of the history before are a prefix of
    the records of the history after, and the log before is a prefix of the
    log after.  The plan inside a snapshot is not among the records: in the
    source it is the live array, which a later [prepTests] grows. *)
Theorem history_and_log_only_grow (env : Env) (calls : list Call)
    (s : Session) :
  map recorded (snapShots s)
    `prefix_of` map recorded (snapShots (performAll env calls s)) /\
  events s `prefix_of` events (performAll env calls s).
Proof.
  assert (H : snapShots s `prefix_of` snapShots (performAll env calls s) /\
              events s `prefix_of` events (performAll env calls s)).
  { revert s. induction calls as [|c calls IH]; intros s; simpl.
    - split; reflexivity.
    - destruct (perform_grows env c s) as [H1 H2].
      destruct (IH (perform env c s)) as [H3 H4].
      split; etransitivity; eassumption. }
  destruct H as [[k Hk] He]. split; [|exact He].
  exists (map recorded k). rewrite Hk. apply map_app.
Qed.

(** X20.  [runTest] never connects by itself on a session its user can
    build: a session gets ready only through [prepTests], which has
    connected, and nothing clears [connection] or [channel].  So after any
    sequence of calls from the construction on, a run makes no connect
    call to the broker. *)
Theorem run_never_connects (env : Env) (a : string) (excs : list Exchange.t)
    (bs : list Binding.t) (m : option Message) (t : option Z)
    (calls : list Call) (fuel : nat) (type : string) :
  let s := performAll env calls (constructor a excs bs m t) in
  exists new,
    events (snd (runTest env fuel type s)) = events s ++ new /\
    forall e, e ∈ new -> isConnectEvent e = false.
Proof.
  intros s.
  pose proof (performAll_wellFormed env calls _
                (constructor_wellFormed a excs bs m t)) as W.
  fold s in W.
  destruct (readyToTest s) eqn:Hready.
  - destruct (wf_ready _ W Hready) as [Hc Hch].
    destruct (runTest_trace env fuel type s)
      as (pre & mid & post & E & _ & Hpre & Fmid & Fpost & _).
    rewrite (Hpre Hc Hch) in E. simpl in E.
    exists (mid ++ post). split; [exact E|].
    rewrite Forall_forall in Fmid, Fpost.
    intros e Hin. apply elem_of_app in Hin as [Hin | Hin].
    + specialize (Fmid _ Hin). destruct e; simpl in *; tauto.
    + specialize (Fpost _ Hin). destruct e; simpl in *; congruence.
  - exists []. unfold runTest. rewrite Hready. simpl. rewrite app_nil_r.
    split; [reflexivity|]. intros e Hin. inversion Hin.
Qed.
